(** * Session and basket state containers of the grocery price-comparison client

    A shallow embedding of [frontend/src/contexts/AuthContext.js] and
    [frontend/src/contexts/CartContext.js]: the two React providers, the
    browser objects they touch ([localStorage], the shared [axios] default
    headers, the console) and the remote API, which answers each request
    with a fulfilled or a rejected promise.

    An [async] function is taken from its call to the settlement of its
    promise in one piece: no other handler runs between a request and its
    reply.  What React does after a handler (render, then the effects whose
    dependencies changed, children first) is [App.commit]. *)

From Stdlib Require Import PrimFloat.
From stdpp Require Import base option strings list gmap.

Local Open Scope string_scope.
Set Warnings "-register-all".

(** ** JavaScript values *)

Module Js.

(** The values that travel through the two stores: what [JSON.parse]
    builds from a response body, plus [undefined].  An object keeps its
    properties in insertion order; the first binding of a name is the
    property. *)
Inductive value : Type :=
| Undefined
| Null
| Bool (b : bool)
| Num (n : float)
| Str (s : string)
| Obj (props : list (string * value))
| Arr (elems : list value).

(** [ToBoolean]: what [if (v)], [!v] and [v || w] test. *)
Definition truthy (v : value) : bool :=
  match v with
  | Undefined | Null => false
  | Bool b => b
  | Num n => negb (PrimFloat.eqb n 0 || negb (PrimFloat.eqb n n))
  | Str s => negb (String.eqb s "")
  | Obj _ | Arr _ => true
  end.

(** [a || b], with [b] a literal. *)
Definition or (a b : value) : value := if truthy a then a else b.

Definition nullish (v : value) : bool :=
  match v with Undefined | Null => true | _ => false end.

Fixpoint assoc (props : list (string * value)) (name : string) : value :=
  match props with
  | [] => Undefined
  | (k, v) :: rest => if String.eqb k name then v else assoc rest name
  end.

(** [v.name] on a value that is neither [null] nor [undefined].  Only plain
    objects carry named properties here; arrays and primitives answer
    [undefined], which is what they answer for every name the stores read
    ([data], [response], [detail], [access_token], [user], [total_items],
    [total_cost], [estimated_savings]). *)
Definition prop (v : value) (name : string) : value :=
  match v with
  | Obj props => assoc props name
  | _ => Undefined
  end.

(** [v?.name] *)
Definition opt_prop (v : value) (name : string) : value :=
  if nullish v then Undefined else prop v name.

(** [Object.is], the comparison React applies to effect dependencies.
    Two objects are the same only when they are one reference; every
    object reaching a dependency here is freshly parsed from a reply, so
    the comparison of two objects answers [false]. *)
Definition Object_is (a b : value) : bool :=
  match a, b with
  | Undefined, Undefined => true
  | Null, Null => true
  | Bool x, Bool y => Bool.eqb x y
  | Num x, Num y => PrimFloat.Leibniz.eqb x y
  | Str x, Str y => String.eqb x y
  | _, _ => false
  end.

(** [new Error(message)] *)
Definition Error (message : string) : value := Obj [("message", Str message)].

Definition TypeError (message : string) : value :=
  Obj [("name", Str "TypeError"); ("message", Str message)].

(** The engine's printing of numbers ([Number::toString]) is taken as
    given; no property below depends on the digits. *)
Class Engine := Number_toString : float → string.

Section ToString.
Context `{Engine}.

(** [String(v)], the conversion behind template literals and behind
    [localStorage.setItem]. *)
Fixpoint ToString (v : value) : string :=
  match v with
  | Undefined => "undefined"
  | Null => "null"
  | Bool true => "true"
  | Bool false => "false"
  | Num n => Number_toString n
  | Str s => s
  | Obj _ => "[object Object]"
  | Arr elems =>
      let element (e : value) : string :=
        if nullish e then "" else ToString e in
      (fix join (es : list value) : string :=
         match es with
         | [] => ""
         | [e] => element e
         | e :: rest => element e +:+ "," +:+ join rest
         end) elems
  end.
End ToString.

End Js.

(** ** Completions *)

(** How a function call ends: with a value, or with a thrown one.  For an
    [async] function these are the fulfilled and the rejected promise. *)
Inductive completion (A : Type) : Type :=
| Normal (a : A)
| Throw (error : Js.value).
Arguments Normal {A} a.
Arguments Throw {A} error.

(** ** The browser, the transport and the hook state *)

Inductive Method := GET | POST | PUT | DELETE.

(** An outbound request as [axios] sends it: the call's own arguments and
    the default headers of the moment. *)
Record Request := mkRequest {
  method : Method;
  url : string;
  data : Js.value;
  headers : gmap string string
}.

(** The settlement of a request: [Fulfilled d] is a response whose body
    ([response.data]) is [d]; [Rejected e] rejects with the error object of
    properties [e] (axios always rejects with an [Error] object; an HTTP
    error status adds the property [response]). *)
Inductive Reply :=
| Fulfilled (body : Js.value)
| Rejected (error : list (string * Js.value)).

(** The remote API: its answer to a request, given the requests before it. *)
Definition Server : Type := list Request → Request → Reply.

(** [useState] cells of [AuthProvider], and what React remembers of its two
    effects: the dependency [[token]] of the last run, and whether the
    mount-only effect ([[]]) has run. *)
Record AuthState := mkAuthState {
  user : Js.value;
  auth_loading : bool;
  token : Js.value;
  token_effect_deps : option Js.value;
  mount_effect_ran : bool
}.

(** [useState] cells of [CartProvider] and the dependency
    [[isAuthenticated]] of the last run of its effect. *)
Record CartState := mkCartState {
  basket : Js.value;
  cart_loading : bool;
  cart_effect_deps : option bool
}.

(** Everything the two providers read or write.  [storage_full] says that
    the storage quota is exhausted, in which case [localStorage.setItem]
    throws; [requests] is the log of outbound requests, oldest first. *)
Record World := mkWorld {
  localStorage : gmap string string;
  storage_full : bool;
  axios_defaults_headers_common : gmap string string;
  server : Server;
  requests : list Request;
  console : list (string * Js.value);
  auth : AuthState;
  cart : CartState
}.

(** Effectful code: a state transformer over the world that ends in a
    completion. *)
Definition Eff (A : Type) : Type := World → completion A * World.

#[export] Instance Eff_ret : MRet Eff := λ A a w, (Normal a, w).

#[export] Instance Eff_bind : MBind Eff := λ A B k m w,
  match m w with
  | (Normal a, w') => k a w'
  | (Throw e, w') => (Throw e, w')
  end.

#[export] Instance Eff_throw : MThrow Js.value Eff := λ A e w, (Throw e, w).

(** [try { body } catch (error) { handler }] *)
Definition try_catch {A} (body : Eff A) (handler : Js.value → Eff A) : Eff A :=
  λ w, match body w with
       | (Normal a, w') => (Normal a, w')
       | (Throw e, w') => handler e w'
       end.

(** [try { body } finally { finalizer }]: the finalizer runs either way and
    the completion of the body stands unless the finalizer throws. *)
Definition try_finally {A} (body : Eff A) (finalizer : Eff unit) : Eff A :=
  λ w, match body w with
       | (c, w') =>
           match finalizer w' with
           | (Normal _, w'') => (c, w'')
           | (Throw e, w'') => (Throw e, w'')
           end
       end.

(** A call whose promise is dropped: [f()] without [await]. *)
Definition detached {A} (m : Eff A) : Eff unit :=
  λ w, (Normal (), snd (m w)).

Definition modify (f : World → World) : Eff unit := λ w, (Normal (), f w).
Definition gets {A} (f : World → A) : Eff A := λ w, (Normal (f w), w).


(** Field updates. *)
Definition with_localStorage (f : gmap string string → gmap string string) (w : World) : World :=
  mkWorld (f (localStorage w)) (storage_full w) (axios_defaults_headers_common w)
    (server w) (requests w) (console w) (auth w) (cart w).

Definition with_headers (f : gmap string string → gmap string string) (w : World) : World :=
  mkWorld (localStorage w) (storage_full w) (f (axios_defaults_headers_common w))
    (server w) (requests w) (console w) (auth w) (cart w).

Definition with_requests (f : list Request → list Request) (w : World) : World :=
  mkWorld (localStorage w) (storage_full w) (axios_defaults_headers_common w)
    (server w) (f (requests w)) (console w) (auth w) (cart w).

Definition with_console (f : list (string * Js.value) → list (string * Js.value)) (w : World) : World :=
  mkWorld (localStorage w) (storage_full w) (axios_defaults_headers_common w)
    (server w) (requests w) (f (console w)) (auth w) (cart w).

Definition with_auth (f : AuthState → AuthState) (w : World) : World :=
  mkWorld (localStorage w) (storage_full w) (axios_defaults_headers_common w)
    (server w) (requests w) (console w) (f (auth w)) (cart w).

Definition with_cart (f : CartState → CartState) (w : World) : World :=
  mkWorld (localStorage w) (storage_full w) (axios_defaults_headers_common w)
    (server w) (requests w) (console w) (auth w) (f (cart w)).

(** [v.name], which throws on [null] and [undefined]. *)
Definition member (v : Js.value) (name : string) : Eff Js.value :=
  if Js.nullish v
  then mthrow (Js.TypeError ("Cannot read properties of " +:+ name))
  else mret (Js.prop v name).

(** [console.error(label, error)] *)
Definition console_error (label : string) (error : Js.value) : Eff unit :=
  modify (with_console (λ log, (log ++ [(label, error)])%list)).

(** [localStorage.getItem(key)]: the stored string, or [null]. *)
Definition localStorage_getItem (key : string) : Eff Js.value :=
  gets (λ w, from_option Js.Str Js.Null (localStorage w !! key)).

(** [localStorage.setItem(key, v)] stores [String(v)], and throws when the
    quota is exhausted. *)
Definition localStorage_setItem `{Js.Engine} (key : string) (v : Js.value) : Eff unit :=
  full ← gets storage_full;
  if (full : bool)
  then mthrow (Js.Obj [("name", Js.Str "QuotaExceededError")])
  else modify (with_localStorage (insert key (Js.ToString v))).

Definition localStorage_removeItem (key : string) : Eff unit :=
  modify (with_localStorage (delete key)).

(** One request through [axios]: the default headers of the moment are
    attached, the request is on the wire, and the promise settles with the
    server's reply.  The response object is known by its [data] only. *)
Definition axios_request (m : Method) (u : string) (d : Js.value) : Eff Js.value :=
  λ w,
    let req := mkRequest m u d (axios_defaults_headers_common w) in
    let w' := with_requests (λ log, (log ++ [req])%list) w in
    match server w (requests w) req with
    | Fulfilled body => (Normal (Js.Obj [("data", body)]), w')
    | Rejected e => (Throw (Js.Obj e), w')
    end.

Definition axios_get (u : string) : Eff Js.value := axios_request GET u Js.Undefined.
Definition axios_post (u : string) (d : Js.value) : Eff Js.value := axios_request POST u d.
Definition axios_put (u : string) (d : Js.value) : Eff Js.value := axios_request PUT u d.
Definition axios_delete (u : string) : Eff Js.value := axios_request DELETE u Js.Undefined.

(** [axios.defaults.headers.common['Authorization'] = `Bearer ${t}`] *)
Definition set_Authorization `{Js.Engine} (t : Js.value) : Eff unit :=
  modify (with_headers (insert "Authorization" ("Bearer " +:+ Js.ToString t))).

(** [delete axios.defaults.headers.common['Authorization']] *)
Definition delete_Authorization : Eff unit :=
  modify (with_headers (delete "Authorization")).

(** [process.env.REACT_APP_BACKEND_URL], fixed at build time. *)
Class Deployment := BACKEND_URL : string.

(** Has a dependency changed since the effect last ran ([None]: it never
    ran)? *)
Definition deps_changed {D} (same : D → D → bool) (last : option D) (now : D) : bool :=
  match last with
  | None => true
  | Some d => negb (same d now)
  end.

(** The result objects of the store operations. *)
Definition success : Js.value := Js.Obj [("success", Js.Bool true)].
Definition failure (message : Js.value) : Js.value :=
  Js.Obj [("success", Js.Bool false); ("error", message)].

(** [error.response?.data?.detail || fallback] *)
Definition detail_or (fallback : string) (error : Js.value) : Eff Js.value :=
  response ← member error "response";
  mret (Js.or (Js.opt_prop (Js.opt_prop response "data") "detail") (Js.Str fallback)).

(** [useContext] of a context created without a default: the value of the
    nearest enclosing provider, [undefined] when there is none.
    [providers] lists the enclosing providers' values, nearest first. *)
Definition useContext {V} (providers : list V) : option V := head providers.

(** ** contexts/AuthContext.js *)

Module AuthContext.

(** The [value] object handed to the consumers of [AuthContext]. *)
Record AuthValue := mkAuthValue {
  value_user : Js.value;
  value_token : Js.value;
  value_loading : bool;
  value_login : Js.value → Js.value → Eff Js.value;
  value_register : Js.value → Js.value → Js.value → Js.value → Eff Js.value;
  value_logout : Eff unit;
  value_updateUser : Js.value → Eff Js.value;
  value_isAuthenticated : bool
}.

(** [if (!context) throw ...; return context]: the context is [undefined]
    outside a provider and the provider's [value] object, which is truthy,
    inside one. *)
Definition useAuth (providers : list AuthValue) : completion AuthValue :=
  match useContext providers with
  | None => Throw (Js.Error "useAuth must be used within an AuthProvider")
  | Some context => Normal context
  end.

Section AuthProvider.
Context `{Js.Engine} `{Deployment}.

Definition API_BASE : string := BACKEND_URL +:+ "/api".

Definition setUser (v : Js.value) : Eff unit :=
  modify (with_auth (λ s,
    mkAuthState v (auth_loading s) (token s) (token_effect_deps s) (mount_effect_ran s))).

Definition setLoading (b : bool) : Eff unit :=
  modify (with_auth (λ s,
    mkAuthState (user s) b (token s) (token_effect_deps s) (mount_effect_ran s))).

Definition setToken (v : Js.value) : Eff unit :=
  modify (with_auth (λ s,
    mkAuthState (user s) (auth_loading s) v (token_effect_deps s) (mount_effect_ran s))).

(** The first render: [useState(null)], [useState(true)] and
    [useState(localStorage.getItem('token'))]; no effect has run yet. *)
Definition useState_initial : Eff unit :=
  saved ← localStorage_getItem "token";
  modify (with_auth (λ _, mkAuthState Js.Null true saved None false)).

(** Body of the effect on [[token]], with the [token] of its render. *)
Definition configure_axios_defaults (token : Js.value) : Eff unit :=
  if Js.truthy token then set_Authorization token else delete_Authorization.

(** Body of the effect on [[]]. *)
Definition checkAuth : Eff unit :=
  savedToken ← localStorage_getItem "token";
  (if Js.truthy savedToken
   then try_catch
          (set_Authorization savedToken;;
           response ← axios_get (API_BASE +:+ "/auth/me");
           d ← member response "data";
           setUser d;;
           setToken savedToken)
          (λ error,
             console_error "Auth check failed:" error;;
             localStorage_removeItem "token";;
             delete_Authorization)
   else mret ());;
  setLoading false.

Definition login (email password : Js.value) : Eff Js.value :=
  try_catch
    (response ← axios_post (API_BASE +:+ "/auth/login")
                  (Js.Obj [("email", email); ("password", password)]);
     d ← member response "data";
     access_token ← member d "access_token";
     userData ← member d "user";
     localStorage_setItem "token" access_token;;
     setToken access_token;;
     setUser userData;;
     set_Authorization access_token;;
     mret success)
    (λ error,
       console_error "Login error:" error;;
       message ← detail_or "Login failed" error;
       mret (failure message)).

Definition register (email password fullName location : Js.value) : Eff Js.value :=
  try_catch
    (response ← axios_post (API_BASE +:+ "/auth/register")
                  (Js.Obj [("email", email); ("password", password);
                           ("full_name", fullName); ("location", location)]);
     d ← member response "data";
     access_token ← member d "access_token";
     userData ← member d "user";
     localStorage_setItem "token" access_token;;
     setToken access_token;;
     setUser userData;;
     set_Authorization access_token;;
     mret success)
    (λ error,
       console_error "Registration error:" error;;
       message ← detail_or "Registration failed" error;
       mret (failure message)).

Definition logout : Eff unit :=
  localStorage_removeItem "token";;
  setToken Js.Null;;
  setUser Js.Null;;
  delete_Authorization.

Definition updateUser (userData : Js.value) : Eff Js.value :=
  try_catch
    (response ← axios_put (API_BASE +:+ "/auth/me") userData;
     d ← member response "data";
     setUser d;;
     mret success)
    (λ error,
       console_error "Update user error:" error;;
       message ← detail_or "Update failed" error;
       mret (failure message)).

(** The [value] object of a render in world [w]. *)
Definition AuthProvider (w : World) : AuthValue :=
  {| value_user := user (auth w);
     value_token := token (auth w);
     value_loading := auth_loading (auth w);
     value_login := login;
     value_register := register;
     value_logout := logout;
     value_updateUser := updateUser;
     value_isAuthenticated := Js.truthy (user (auth w)) |}.

(** The effects of [AuthProvider] after a render that saw the token
    [rendered]: the one on [[token]] when the token is not the one of its
    last run, and the one on [[]] once.  [checkAuth()] is called without
    [await]. *)
Definition effects (rendered : Js.value) : Eff unit :=
  last ← gets (token_effect_deps ∘ auth);
  (if deps_changed Js.Object_is last rendered
   then configure_axios_defaults rendered;;
        modify (with_auth (λ s,
          mkAuthState (user s) (auth_loading s) (token s) (Some rendered) (mount_effect_ran s)))
   else mret ());;
  ran ← gets (mount_effect_ran ∘ auth);
  if (ran : bool)
  then mret ()
  else modify (with_auth (λ s,
         mkAuthState (user s) (auth_loading s) (token s) (token_effect_deps s) true));;
       detached checkAuth.

End AuthProvider.

End AuthContext.

(** ** contexts/CartContext.js *)

Module CartContext.

(** The [value] object handed to the consumers of [CartContext]. *)
Record CartValue := mkCartValue {
  value_basket : Js.value;
  value_loading : bool;
  value_fetchBasket : Eff Js.value;
  value_addToBasket : Js.value → Js.value → Js.value → Eff Js.value;
  value_updateBasketItem : Js.value → Js.value → Eff Js.value;
  value_removeFromBasket : Js.value → Eff Js.value;
  value_clearBasket : Eff Js.value;
  value_getBasketSummary : Eff Js.value;
  value_itemCount : Js.value;
  value_totalCost : Js.value;
  value_estimatedSavings : Js.value
}.

Definition useCart (providers : list CartValue) : completion CartValue :=
  match useContext providers with
  | None => Throw (Js.Error "useCart must be used within a CartProvider")
  | Some context => Normal context
  end.

(** [basket?.total_items || 0] and its two siblings. *)
Definition itemCount (basket : Js.value) : Js.value :=
  Js.or (Js.opt_prop basket "total_items") (Js.Num 0).

Definition totalCost (basket : Js.value) : Js.value :=
  Js.or (Js.opt_prop basket "total_cost") (Js.Num 0).

Definition estimatedSavings (basket : Js.value) : Js.value :=
  Js.or (Js.opt_prop basket "estimated_savings") (Js.Num 0).

Section CartProvider.
Context `{Js.Engine} `{Deployment}.

Definition API_BASE : string := BACKEND_URL +:+ "/api".

Definition setBasket (v : Js.value) : Eff unit :=
  modify (with_cart (λ s, mkCartState v (cart_loading s) (cart_effect_deps s))).

Definition setLoading (b : bool) : Eff unit :=
  modify (with_cart (λ s, mkCartState (basket s) b (cart_effect_deps s))).

(** The first render: [useState(null)] and [useState(false)]. *)
Definition useState_initial : Eff unit :=
  modify (with_cart (λ _, mkCartState Js.Null false None)).

(** The operations are closures of one render: they see the
    [isAuthenticated] that [useAuth()] gave to that render. *)
Variable isAuthenticated : bool.

Definition fetchBasket : Eff Js.value :=
  if negb isAuthenticated then mret Js.Undefined else
  try_finally
    (try_catch
       (setLoading true;;
        response ← axios_get (API_BASE +:+ "/basket/");
        d ← member response "data";
        setBasket d;;
        mret Js.Undefined)
       (λ error,
          console_error "Error fetching basket:" error;;
          mret Js.Undefined))
    (setLoading false).

(** [quantity = 1]: the default stands in for [undefined]. *)
Definition addToBasket (productId storeId quantity : Js.value) : Eff Js.value :=
  let quantity := match quantity with Js.Undefined => Js.Num 1 | q => q end in
  if negb isAuthenticated then mret (failure (Js.Str "Not authenticated")) else
  try_finally
    (try_catch
       (setLoading true;;
        response ← axios_post (API_BASE +:+ "/basket/items")
                     (Js.Obj [("product_id", productId); ("store_id", storeId);
                              ("quantity", quantity)]);
        d ← member response "data";
        setBasket d;;
        mret success)
       (λ error,
          console_error "Error adding to basket:" error;;
          message ← detail_or "Failed to add to basket" error;
          mret (failure message)))
    (setLoading false).

Definition updateBasketItem (itemId quantity : Js.value) : Eff Js.value :=
  if negb isAuthenticated then mret (failure (Js.Str "Not authenticated")) else
  try_finally
    (try_catch
       (setLoading true;;
        response ← axios_put (API_BASE +:+ "/basket/items/" +:+ Js.ToString itemId)
                     (Js.Obj [("quantity", quantity)]);
        d ← member response "data";
        setBasket d;;
        mret success)
       (λ error,
          console_error "Error updating basket item:" error;;
          message ← detail_or "Failed to update item" error;
          mret (failure message)))
    (setLoading false).

Definition removeFromBasket (itemId : Js.value) : Eff Js.value :=
  if negb isAuthenticated then mret (failure (Js.Str "Not authenticated")) else
  try_finally
    (try_catch
       (setLoading true;;
        response ← axios_delete (API_BASE +:+ "/basket/items/" +:+ Js.ToString itemId);
        d ← member response "data";
        setBasket d;;
        mret success)
       (λ error,
          console_error "Error removing from basket:" error;;
          message ← detail_or "Failed to remove item" error;
          mret (failure message)))
    (setLoading false).

Definition clearBasket : Eff Js.value :=
  if negb isAuthenticated then mret (failure (Js.Str "Not authenticated")) else
  try_finally
    (try_catch
       (setLoading true;;
        response ← axios_delete (API_BASE +:+ "/basket/");
        d ← member response "data";
        setBasket d;;
        mret success)
       (λ error,
          console_error "Error clearing basket:" error;;
          message ← detail_or "Failed to clear basket" error;
          mret (failure message)))
    (setLoading false).

Definition getBasketSummary : Eff Js.value :=
  if negb isAuthenticated then mret Js.Null else
  try_catch
    (response ← axios_get (API_BASE +:+ "/basket/summary");
     member response "data")
    (λ error,
       console_error "Error getting basket summary:" error;;
       mret Js.Null).

(** Body of the effect on [[isAuthenticated]]; [fetchBasket()] is called
    without [await]. *)
Definition on_isAuthenticated : Eff unit :=
  if isAuthenticated then detached fetchBasket else setBasket Js.Null.

(** The effect of [CartProvider] after a render: it runs when
    [isAuthenticated] is not the one of its last run. *)
Definition effects : Eff unit :=
  last ← gets (cart_effect_deps ∘ cart);
  if deps_changed Bool.eqb last isAuthenticated
  then on_isAuthenticated;;
       modify (with_cart (λ s,
         mkCartState (basket s) (cart_loading s) (Some isAuthenticated)))
  else mret ().

End CartProvider.

(** A render of [CartProvider] in world [w], below the providers
    [providers] of [AuthContext]: [useAuth()] may throw; otherwise the
    [value] object closes over the flag it returned. *)
Definition CartProvider `{Js.Engine} `{Deployment}
    (providers : list AuthContext.AuthValue) (w : World) : completion CartValue :=
  match AuthContext.useAuth providers with
  | Throw e => Throw e
  | Normal context =>
      let isAuthenticated := AuthContext.value_isAuthenticated context in
      Normal
        {| value_basket := basket (cart w);
           value_loading := cart_loading (cart w);
           value_fetchBasket := fetchBasket isAuthenticated;
           value_addToBasket := addToBasket isAuthenticated;
           value_updateBasketItem := updateBasketItem isAuthenticated;
           value_removeFromBasket := removeFromBasket isAuthenticated;
           value_clearBasket := clearBasket isAuthenticated;
           value_getBasketSummary := getBasketSummary isAuthenticated;
           value_itemCount := itemCount (basket (cart w));
           value_totalCost := totalCost (basket (cart w));
           value_estimatedSavings := estimatedSavings (basket (cart w)) |}
  end.

End CartContext.

(** ** App.js: [<AuthProvider><CartProvider>...</CartProvider></AuthProvider>] *)

Module App.
Section App.
Context `{Js.Engine} `{Deployment}.

(** The first render of the two providers. *)
Definition mount : Eff unit :=
  AuthContext.useState_initial;;
  CartContext.useState_initial.

(** One render and commit: both providers render from the state of the
    moment, then the effects run, the child's before the parent's. *)
Definition commit : Eff unit :=
  w ← gets id;
  let authValue := AuthContext.AuthProvider w in
  match CartContext.CartProvider [authValue] w with
  | Throw e => mthrow e
  | Normal _ =>
      CartContext.effects (AuthContext.value_isAuthenticated authValue);;
      AuthContext.effects (AuthContext.value_token authValue)
  end.

(** Renders follow each other while effects change the state; [settle n]
    is [n] of them. *)
Fixpoint settle (n : nat) : Eff unit :=
  match n with
  | 0 => mret ()
  | S n' => commit;; settle n'
  end.

(** Start-up ([initialize] in the specification): the first render and
    its commit, which runs [checkAuth]. *)
Definition initialize : Eff unit := mount;; commit.

(** No effect is due: each one last ran with the dependencies of the
    current state. *)
Definition idle (w : World) : bool :=
  bool_decide (cart_effect_deps (cart w) = Some (Js.truthy (user (auth w))))
  && negb (deps_changed Js.Object_is (token_effect_deps (auth w)) (token (auth w)))
  && mount_effect_ran (auth w).

End App.
End App.

(** A page load: nothing but the persisted storage and the server. *)
Definition page_load (storage : gmap string string) (full : bool) (srv : Server) : World :=
  {| localStorage := storage;
     storage_full := full;
     axios_defaults_headers_common := ∅;
     server := srv;
     requests := [];
     console := [];
     auth := mkAuthState Js.Undefined false Js.Undefined None false;
     cart := mkCartState Js.Undefined false None |}.

(** ** Operators of the language used by the pages *)

Module JsOps.

(** The engine's reading of a string as a number ([StringToNumber]) is
    taken as given. *)
Class Parser := StringToNumber : string → float.

Section Operators.
Context `{Js.Engine} `{Parser}.

(** [ToPrimitive]: the plain objects and arrays of the model have no
    primitive [valueOf], so they go to their strings. *)
Definition ToPrimitive (v : Js.value) : Js.value :=
  match v with
  | Js.Obj _ | Js.Arr _ => Js.Str (Js.ToString v)
  | _ => v
  end.

Definition ToNumber (v : Js.value) : float :=
  match ToPrimitive v with
  | Js.Undefined => PrimFloat.nan
  | Js.Null => 0
  | Js.Bool true => 1
  | Js.Bool false => 0
  | Js.Num n => n
  | Js.Str s => StringToNumber s
  | Js.Obj _ | Js.Arr _ => PrimFloat.nan
  end.

(** [a < n] for a number [n]: the left side is converted to a number,
    and the comparison is false when it is [NaN]. *)
Definition less_than_number (a : Js.value) (n : float) : bool :=
  PrimFloat.ltb (ToNumber a) n.

(** [a + b]: concatenation as soon as one side is a string after
    [ToPrimitive], the sum of the two numbers otherwise. *)
Definition add (a b : Js.value) : Js.value :=
  match ToPrimitive a, ToPrimitive b with
  | Js.Str x, pb => Js.Str (x +:+ Js.ToString pb)
  | pa, Js.Str y => Js.Str (Js.ToString pa +:+ y)
  | pa, pb => Js.Num (PrimFloat.add (ToNumber pa) (ToNumber pb))
  end.

End Operators.



(** [items.reduce(f, initial)] over the elements of an array; a throw of
    the callback ends it. *)
Fixpoint reduce {A} (f : A → Js.value → completion A) (items : list Js.value) (acc : A)
    : completion A :=
  match items with
  | [] => Normal acc
  | item :: rest =>
      match f acc item with
      | Normal acc' => reduce f rest acc'
      | Throw e => Throw e
      end
  end.

End JsOps.

(** ** pages/BasketPage.js *)

(* The literal 0.1 below is, as in the source, the nearest double. *)
#[local] Set Warnings "-inexact-float".

Module BasketPage.
Section BasketPage.
Context `{Js.Engine} `{JsOps.Parser}.

(** [useCart()] of the render. *)
Variable cart : CartContext.CartValue.

Definition handleQuantityChange (itemId newQuantity : Js.value) : Eff Js.value :=
  if JsOps.less_than_number newQuantity 0.1 then mret Js.Undefined else
  CartContext.value_updateBasketItem cart itemId newQuantity;;
  mret Js.Undefined.

Definition handleRemoveItem (itemId : Js.value) : Eff Js.value :=
  CartContext.value_removeFromBasket cart itemId;;
  mret Js.Undefined.

(** [confirmed] is the answer of [window.confirm]. *)
Definition handleClearBasket (confirmed : bool) : Eff Js.value :=
  if confirmed
  then CartContext.value_clearBasket cart;; mret Js.Undefined
  else mret Js.Undefined.

End BasketPage.

Section Grouping.
Context `{Js.Engine}.




End Grouping.

Section Totals.
Context `{Js.Engine} `{JsOps.Parser}.

Definition calculateStoreTotal (storeItems : list Js.value) : completion Js.value :=
  JsOps.reduce
    (λ total item,
       if Js.nullish item
       then Throw (Js.TypeError "Cannot read properties of total_price")
       else Normal (JsOps.add total (Js.prop item "total_price")))
    storeItems (Js.Num 0).

End Totals.
End BasketPage.

(** ** pages/RegisterPage.js *)

Module RegisterPage.

(** The [useState] cells of the page, and where [navigate] last sent
    the router. *)
Record State := mkState {
  formData : gmap string string;
  loading : bool;
  error : Js.value;
  navigated : option string
}.

Definition initial : State :=
  {| formData := list_to_map [("email", ""); ("password", ""); ("confirmPassword", "");
                              ("fullName", ""); ("location", "")];
     loading := false;
     error := Js.Str "";
     navigated := None |}.

(** [formData.name] *)
Definition field (st : State) (name : string) : Js.value :=
  from_option Js.Str Js.Undefined (formData st !! name).

(** [setFormData({ ...formData, [e.target.name]: e.target.value })] *)
Definition handleChange (name value : string) (st : State) : State :=
  mkState (<[name := value]> (formData st)) (loading st) (error st) (navigated st).

(** [handleSubmit], from the cells of its render to the cells it leaves.
    [setLoading(true)] and [setError('')] come first, so that an error
    shown before is gone unless set again. *)
Definition handleSubmit (auth : AuthContext.AuthValue) (st : State) : Eff State :=
  if bool_decide (formData st !! "password" ≠ formData st !! "confirmPassword")
  then mret (mkState (formData st) false (Js.Str "Passwords do not match") (navigated st))
  else
    result ← AuthContext.value_register auth
               (field st "email") (field st "password")
               (field st "fullName") (field st "location");
    succeeded ← member result "success";
    if Js.truthy succeeded
    then mret (mkState (formData st) false (Js.Str "") (Some "/"))
    else message ← member result "error";
         mret (mkState (formData st) false message (navigated st)).

End RegisterPage.


(** ** Vocabulary of the properties *)

(** The mutating operations of the cart store, and all its operations. *)
Inductive Mutation :=
| AddItem (productId storeId quantity : Js.value)
| UpdateItem (itemId quantity : Js.value)
| RemoveItem (itemId : Js.value)
| Clear.

Inductive Operation :=
| Fetch
| Mutate (m : Mutation)
| FetchSummary.

Definition mutate `{Js.Engine} `{Deployment} (isAuthenticated : bool) (m : Mutation) : Eff Js.value :=
  match m with
  | AddItem productId storeId quantity =>
      CartContext.addToBasket isAuthenticated productId storeId quantity
  | UpdateItem itemId quantity => CartContext.updateBasketItem isAuthenticated itemId quantity
  | RemoveItem itemId => CartContext.removeFromBasket isAuthenticated itemId
  | Clear => CartContext.clearBasket isAuthenticated
  end.

Definition operate `{Js.Engine} `{Deployment} (isAuthenticated : bool) (op : Operation) : Eff Js.value :=
  match op with
  | Fetch => CartContext.fetchBasket isAuthenticated
  | Mutate m => mutate isAuthenticated m
  | FetchSummary => CartContext.getBasketSummary isAuthenticated
  end.

(** The requests that running [op] from [w] puts on the wire. *)
Definition sent {A} (op : Eff A) (w : World) : list Request :=
  drop (length (requests w)) (requests (snd (op w))).

(** The reply to the one request that [op] sends from [w]; [None] when it
    sends none, or several. *)
Definition settled {A} (op : Eff A) (w : World) : option Reply :=
  match sent op w with
  | [req] => Some (server w (requests w) req)
  | _ => None
  end.

(** The uniform failure result [{ success: false, error: message }]. *)
Definition is_failure_result (r : Js.value) : bool :=
  match r with
  | Js.Obj [("success", Js.Bool false); ("error", _)] => true
  | _ => false
  end.

(** [error.response?.data?.detail] of a thrown object. *)
Definition detail_of (error : Js.value) : Js.value :=
  Js.opt_prop (Js.opt_prop (Js.prop error "response") "data") "detail".

(** The generic message of each mutating operation. *)
Definition fallback (m : Mutation) : string :=
  match m with
  | AddItem _ _ _ => "Failed to add to basket"
  | UpdateItem _ _ => "Failed to update item"
  | RemoveItem _ => "Failed to remove item"
  | Clear => "Failed to clear basket"
  end.

(** What an operation answers when it is called unauthenticated, and when
    its request is rejected with [error]. *)
Definition disabled_result (op : Operation) : Js.value :=
  match op with
  | Fetch => Js.Undefined
  | Mutate _ => failure (Js.Str "Not authenticated")
  | FetchSummary => Js.Null
  end.

Definition rejected_result (op : Operation) (error : Js.value) : Js.value :=
  match op with
  | Fetch => Js.Undefined
  | Mutate m => failure (Js.or (detail_of error) (Js.Str (fallback m)))
  | FetchSummary => Js.Null
  end.

(** The credential on the shared default headers and the persisted token. *)
Definition credential (w : World) : option string :=
  axios_defaults_headers_common w !! "Authorization".

Definition persisted_token (w : World) : option string :=
  localStorage w !! "token".


(** What a user can trigger once the application is up. *)
Inductive Event :=
| Login (email password : Js.value)
| Register (email password fullName location : Js.value)
| Logout
| UpdateUser (userData : Js.value)
| Cart (op : Operation).

Section Events.
Context `{Js.Engine} `{Deployment}.

(** An event calls the operation of the current render's [value] objects;
    React then renders until no effect is due.  Once start-up is over one
    render is enough ([commit_reaches_idle]); [handle] allows two. *)
Definition handler (ev : Event) : Eff unit :=
  w ← gets id;
  let authValue := AuthContext.AuthProvider w in
  match CartContext.CartProvider [authValue] w with
  | Throw e => mthrow e
  | Normal cartValue =>
      match ev with
      | Login email password =>
          detached (AuthContext.value_login authValue email password)
      | Register email password fullName location =>
          detached (AuthContext.value_register authValue email password fullName location)
      | Logout => AuthContext.value_logout authValue
      | UpdateUser userData => detached (AuthContext.value_updateUser authValue userData)
      | Cart Fetch => detached (CartContext.value_fetchBasket cartValue)
      | Cart (Mutate (AddItem productId storeId quantity)) =>
          detached (CartContext.value_addToBasket cartValue productId storeId quantity)
      | Cart (Mutate (UpdateItem itemId quantity)) =>
          detached (CartContext.value_updateBasketItem cartValue itemId quantity)
      | Cart (Mutate (RemoveItem itemId)) =>
          detached (CartContext.value_removeFromBasket cartValue itemId)
      | Cart (Mutate Clear) => detached (CartContext.value_clearBasket cartValue)
      | Cart FetchSummary => detached (CartContext.value_getBasketSummary cartValue)
      end
  end.

Definition handle (ev : Event) : Eff unit := handler ev;; App.settle 2.

Fixpoint run (evs : list Event) : Eff unit :=
  match evs with
  | [] => mret ()
  | ev :: rest => handle ev;; run rest
  end.

(** A session: start-up, the render that follows it, and then events. *)
Definition session (evs : list Event) : Eff unit :=
  App.initialize;; App.settle 1;; run evs.

(** The world once start-up from a page load has completed. *)
Definition booted (storage : gmap string string) (full : bool) (srv : Server) : World :=
  snd (App.initialize (page_load storage full srv)).

(** The request of [checkAuth] for the saved token [t]; the credential
    was put on the default headers by the effect on [[token]] and again
    by [checkAuth] itself. *)
Definition validation_request (t : string) : Request :=
  {| method := GET;
     url := AuthContext.API_BASE +:+ "/auth/me";
     data := Js.Undefined;
     headers := <["Authorization" := "Bearer " +:+ t]>
                  (<["Authorization" := "Bearer " +:+ t]> ∅) |}.

(** The world that a session has reached after the events [evs]. *)
Definition reached (storage : gmap string string) (full : bool) (srv : Server)
    (evs : list Event) : World :=
  snd (session evs (page_load storage full srv)).


End Events.


(** The request carries the credential [c] ([None]: it carries none). *)
Definition carries (c : option string) (req : Request) : Prop :=
  headers req !! "Authorization" = c.




(** [w'] comes from [w] by steps that leave the storage, the default
    headers, the server and the token cell alone, and whose requests went
    out under the headers of [w]. *)
Definition frames (w w' : World) : Prop :=
  localStorage w' = localStorage w
  ∧ axios_defaults_headers_common w' = axios_defaults_headers_common w
  ∧ server w' = server w
  ∧ token (auth w') = token (auth w)
  ∧ token_effect_deps (auth w') = token_effect_deps (auth w)
  ∧ mount_effect_ran (auth w') = mount_effect_ran (auth w)
  ∧ ∃ new, requests w' = (requests w ++ new)%list
           ∧ Forall (λ req, headers req = axios_defaults_headers_common w) new.


(** The uniform contract read literally: the call answers a failure
    result. *)
Definition answers_failure_result (op : Eff Js.value) (w : World) : Prop :=
  ∃ r, fst (op w) = Normal r ∧ is_failure_result r = true.

(** The derived values read literally: zero without a snapshot, the
    snapshot's own field with one. *)
Definition exact_projections (b : Js.value) : Prop :=
  if Js.nullish b
  then CartContext.itemCount b = Js.Num 0
       ∧ CartContext.totalCost b = Js.Num 0
       ∧ CartContext.estimatedSavings b = Js.Num 0
  else CartContext.itemCount b = Js.prop b "total_items"
       ∧ CartContext.totalCost b = Js.prop b "total_cost"
       ∧ CartContext.estimatedSavings b = Js.prop b "estimated_savings".

(** The field [name] of the snapshot [b] when there is a snapshot and the
    field is truthy (a number other than zero), and zero otherwise: no
    snapshot, or a field that is missing, [null], zero or [NaN]. *)
Definition projection (name : string) (b : Js.value) : Js.value :=
  if Js.nullish b then Js.Num 0
  else if Js.truthy (Js.prop b name) then Js.prop b name
  else Js.Num 0.

(** The two ways to open a session. *)
Inductive SignIn :=
| ByLogin (email password : Js.value)
| ByRegister (email password fullName location : Js.value).

Definition sign_in `{Js.Engine} `{Deployment} (s : SignIn) : Eff Js.value :=
  match s with
  | ByLogin email password => AuthContext.login email password
  | ByRegister email password fullName location =>
      AuthContext.register email password fullName location
  end.



(** The effect of [CartProvider] last ran under the flag [f], which may
    no longer be the one of the user cell; the basket is [null] if [f] was
    false. *)
Definition cart_behind (w : World) : Prop :=
  mount_effect_ran (auth w) = true
  ∧ ∃ f, cart_effect_deps (cart w) = Some f ∧ (f = false → basket (cart w) = Js.Null).

(** The server answers an accepted login or registration with a string
    as [access_token]. *)
Definition issues_string_tokens `{Deployment} (srv : Server) : Prop :=
  ∀ log req body,
    srv log req = Fulfilled body →
    url req = AuthContext.API_BASE +:+ "/auth/login"
    ∨ url req = AuthContext.API_BASE +:+ "/auth/register" →
    Js.nullish body = false →
    ∃ t, Js.prop body "access_token" = Js.Str t.

(** Start-up is over and the token cell holds a value that is the same
    as itself to [Object.is]. *)
Definition token_settles (srv : Server) (w : World) : Prop :=
  server w = srv
  ∧ mount_effect_ran (auth w) = true
  ∧ Js.Object_is (token (auth w)) (token (auth w)) = true.



(** ** Sample data for the closed examples *)

(** A stand-in for the engine's number printing and a deployment. *)
Definition sample_engine : Js.Engine := λ _, "0".
Definition sample_deployment : Deployment := "http://localhost:8001".

(** A transport failure: the error object has no [response]. *)
Definition network_down : Server :=
  λ _ _, Rejected [("message", Js.Str "Network Error")].

(** A server that refuses everything with a [detail]. *)
Definition refuses (detail : Js.value) : Server :=
  λ _ _, Rejected [("message", Js.Str "Request failed with status code 401");
                   ("response", Js.Obj [("status", Js.Num 401);
                                        ("data", Js.Obj [("detail", detail)])])].

Definition sample_user : Js.value :=
  Js.Obj [("id", Js.Str "u1"); ("email", Js.Str "a@b.com"); ("full_name", Js.Str "A B")].

(** A basket of one entry; the server left [estimated_savings] empty. *)
Definition sample_basket : Js.value :=
  Js.Obj [("items", Js.Arr [Js.Obj [("id", Js.Str "i1"); ("product_name", Js.Str "Milk");
                                    ("store_name", Js.Str "Tesco"); ("store_id", Js.Str "S1");
                                    ("price", Js.Num 2); ("unit", Js.Str "2L");
                                    ("quantity", Js.Num 2); ("total_price", Js.Num 4)]]);
          ("total_items", Js.Num 1);
          ("total_cost", Js.Num 4);
          ("estimated_savings", Js.Null);
          ("alternative_stores", Js.Obj [])].

(** A server that accepts everything: a session for the two [/auth]
    posts, the profile for [/auth/me], the basket for the rest. *)
Definition sample_server : Server :=
  λ _ req,
    if String.eqb (url req) "http://localhost:8001/api/auth/login"
       || String.eqb (url req) "http://localhost:8001/api/auth/register"
    then Fulfilled (Js.Obj [("access_token", Js.Str "srv-token"); ("user", sample_user)])
    else if String.eqb (url req) "http://localhost:8001/api/auth/me"
    then Fulfilled sample_user
    else Fulfilled sample_basket.

(** A world in the middle of a session: a user is signed in. *)
Definition signed_in (srv : Server) : World :=
  {| localStorage := {["token" := "srv-token"]};
     storage_full := false;
     axios_defaults_headers_common := {["Authorization" := "Bearer srv-token"]};
     server := srv;
     requests := [];
     console := [];
     auth := mkAuthState sample_user false (Js.Str "srv-token") (Some (Js.Str "srv-token")) true;
     cart := mkCartState Js.Null false (Some true) |}.

(** A world right after a successful [login], before the next render:
    the effect of [CartProvider] last ran under a false flag. *)
Definition just_logged_in (srv : Server) : World :=
  {| localStorage := {["token" := "srv-token"]};
     storage_full := false;
     axios_defaults_headers_common := {["Authorization" := "Bearer srv-token"]};
     server := srv;
     requests := [];
     console := [];
     auth := mkAuthState sample_user false (Js.Str "srv-token") (Some Js.Null) true;
     cart := mkCartState Js.Null false (Some false) |}.

(** A stand-in for the engine's reading of a string as a number. *)
Definition sample_parser : JsOps.Parser := λ _, PrimFloat.nan.

(** The entries of a basket over two stores. *)
Definition sample_items : list Js.value :=
  [Js.Obj [("id", Js.Str "i1"); ("store_name", Js.Str "Tesco"); ("total_price", Js.Num 4)];
   Js.Obj [("id", Js.Str "i2"); ("store_name", Js.Str "Asda"); ("total_price", Js.Num 1.5)];
   Js.Obj [("id", Js.Str "i3"); ("store_name", Js.Str "Tesco"); ("total_price", Js.Num 2)]].



(** A session: sign in, add an item, sign out. *)
Definition sample_events : list Event :=
  [Login (Js.Str "a@b.com") (Js.Str "x");
   Cart (Mutate (AddItem (Js.Str "P1") (Js.Str "S1") (Js.Num 2)));
   Logout].

(** ** Properties *)

Section Properties.
Context `{Js.Engine} `{Deployment}.

Ltac unfold_eff :=
  unfold operate, mutate,
    CartContext.fetchBasket, CartContext.addToBasket, CartContext.updateBasketItem,
    CartContext.removeFromBasket, CartContext.clearBasket, CartContext.getBasketSummary,
    CartContext.setLoading, CartContext.setBasket,
    AuthContext.login, AuthContext.register, AuthContext.logout, AuthContext.updateUser,
    AuthContext.setUser, AuthContext.setToken, AuthContext.setLoading,
    set_Authorization, delete_Authorization,
    localStorage_getItem, localStorage_setItem, localStorage_removeItem,
    detail_or, member, console_error,
    axios_post, axios_get, axios_put, axios_delete, axios_request,
    try_finally, try_catch, detached, modify, gets,
    mbind, mret, mthrow, Eff_bind, Eff_ret, Eff_throw in *.

Lemma sent_none {A} (op : Eff A) (w : World) :
  requests (snd (op w)) = requests w → sent op w = [].
Proof. unfold sent. intros ->. apply drop_all. Qed.

Lemma sent_one {A} (op : Eff A) (w : World) (req : Request) :
  requests (snd (op w)) = (requests w ++ [req])%list → sent op w = [req].
Proof. unfold sent. intros ->. apply drop_app_length. Qed.

Lemma or_truthy (a b : Js.value) : Js.truthy a = true → Js.or a b = a.
Proof. unfold Js.or. intros ->. reflexivity. Qed.

Lemma or_falsy (a b : Js.value) : Js.truthy a = false → Js.or a b = b.
Proof. unfold Js.or. intros ->. reflexivity. Qed.

Lemma nullish_falsy (a : Js.value) : Js.nullish a = true → Js.truthy a = false.
Proof. destruct a; simpl; congruence. Qed.

(** An operation called while authenticated sends one request, and what
    it does next is decided by the reply. *)
Lemma operate_outcome (op : Operation) (w : World) :
  ∃ req,
    requests (snd (operate true op w)) = (requests w ++ [req])%list
    ∧ match server w (requests w) req with
      | Fulfilled body =>
          fst (operate true op w)
          = Normal (match op with
                    | Fetch => Js.Undefined
                    | Mutate _ => success
                    | FetchSummary => body
                    end)
          ∧ basket (cart (snd (operate true op w)))
            = match op with FetchSummary => basket (cart w) | _ => body end
      | Rejected e =>
          fst (operate true op w) = Normal (rejected_result op (Js.Obj e))
          ∧ basket (cart (snd (operate true op w))) = basket (cart w)
          ∧ ∃ label, console (snd (operate true op w))
                     = (console w ++ [(label, Js.Obj e)])%list
      end.
Proof.
  destruct op as [|[]|]; unfold_eff; cbn;
    match goal with
    | |- context [server w (requests w) ?r] => exists r
    end;
    destruct (server w (requests w) _); cbn; eauto.
Qed.

(** The same operation called unauthenticated: it answers at once and
    the world is as it was. *)
Lemma operate_disabled (op : Operation) (w : World) :
  operate false op w = (Normal (disabled_result op), w).
Proof. destruct op as [|[]|]; reflexivity. Qed.

(** *** Cart store: replacement of the snapshot *)


(** *** Cart store: operations while unauthenticated *)

(** C2, as amended.  An operation of a render whose [isAuthenticated] is
    false answers at once, changes nothing and sends no request.  The four
    mutating operations answer
    [{ success: false, error: 'Not authenticated' }]; [fetchBasket] answers
    [undefined] and [getBasketSummary] answers [null], neither of which is
    a failure result.  After [logout()] the flag of the next render is
    false, so these are the operations it hands out. *)
Theorem disabled_operations_answer_locally (op : Operation) (w : World) :
  operate false op w = (Normal (disabled_result op), w)
  ∧ sent (operate false op) w = []
  ∧ is_failure_result (disabled_result op)
    = match op with Mutate _ => true | _ => false end
  ∧ AuthContext.value_isAuthenticated
      (AuthContext.AuthProvider (snd (AuthContext.logout w))) = false.
Proof.
  repeat split.
  - apply operate_disabled.
  - apply sent_none. rewrite operate_disabled. reflexivity.
  - destruct op as [|[]|]; reflexivity.
Qed.

(** *** Cart store: rejected requests *)

(** C8, as amended.  An operation called while authenticated whose
    request is rejected has sent that one request and no other, and leaves
    the snapshot as it was.  A mutating operation answers
    [{ success: false, error }] with the reply's [detail] or its own
    generic message; [getBasketSummary] answers [null]; [fetchBasket]
    answers [undefined], as it does when it succeeds, and the error goes to
    the console only. *)
Theorem rejected_operation_keeps_snapshot
    (op : Operation) (w : World) (e : list (string * Js.value)) :
  settled (operate true op) w = Some (Rejected e) →
  fst (operate true op w) = Normal (rejected_result op (Js.Obj e))
  ∧ (∃ req, sent (operate true op) w = [req])
  ∧ basket (cart (snd (operate true op w))) = basket (cart w)
  ∧ (∃ label, console (snd (operate true op w))
              = (console w ++ [(label, Js.Obj e)])%list)
  ∧ is_failure_result (rejected_result op (Js.Obj e))
    = match op with Mutate _ => true | _ => false end.
Proof.
  destruct (operate_outcome op w) as (req & Hsent & Hreply).
  unfold settled. rewrite (sent_one _ _ _ Hsent).
  intros [= Hrejected]. rewrite Hrejected in Hreply.
  destruct Hreply as (Hresult & Hbasket & Hconsole).
  repeat split; eauto.
  destruct op as [|[]|]; reflexivity.
Qed.

(** *** Cart store: derived values *)

(** C6, as amended.  The derived values of a render are functions of the
    snapshot alone: zero when there is no snapshot; with a snapshot, the
    field itself when it is truthy and zero when it is missing, [null],
    zero or [NaN].  For a field holding a number other than [NaN] the
    derived value is therefore a number equal to it. *)
Theorem derived_values_project_snapshot (w : World) (v : CartContext.CartValue) :
  CartContext.CartProvider [AuthContext.AuthProvider w] w = Normal v →
  CartContext.value_itemCount v = projection "total_items" (basket (cart w))
  ∧ CartContext.value_totalCost v = projection "total_cost" (basket (cart w))
  ∧ CartContext.value_estimatedSavings v
    = projection "estimated_savings" (basket (cart w))
  ∧ ∀ name n,
      Js.nullish (basket (cart w)) = false →
      Js.prop (basket (cart w)) name = Js.Num n →
      PrimFloat.eqb n n = true →
      ∃ n', projection name (basket (cart w)) = Js.Num n'
            ∧ PrimFloat.eqb n n' = true.
Proof.
  intros [= <-]. cbn.
  unfold CartContext.itemCount, CartContext.totalCost, CartContext.estimatedSavings,
    projection, Js.or, Js.opt_prop.
  repeat split; try (destruct (Js.nullish (basket (cart w))); reflexivity).
  intros name n -> -> Hnum. cbn.
  destruct (PrimFloat.eqb n 0) eqn:Hzero; cbn.
  - eauto.
  - rewrite Hnum. cbn. eauto.
Qed.

(** *** Session store: a failed login *)

(** C5.  A [login] call that does not succeed answers
    [{ success: false, error: message }], where [message] is the [detail]
    of the error response when it carries one and 'Login failed' otherwise
    (no response, no [detail], or an empty one); the error is the reply's
    when the server rejected the request.  The token and user cells, the
    persisted token and the credential are as they were. *)
Theorem failed_login_reports_and_keeps_state (email password : Js.value) (w : World) :
  fst (AuthContext.login email password w) ≠ Normal success →
  ∃ error message,
    fst (AuthContext.login email password w) = Normal (failure message)
    ∧ is_failure_result (failure message) = true
    ∧ (Js.truthy (detail_of error) = true → message = detail_of error)
    ∧ (Js.truthy (detail_of error) = false → message = Js.Str "Login failed")
    ∧ (∀ s, detail_of error = Js.Str s → s ≠ "" → message = Js.Str s)
    ∧ (Js.nullish (detail_of error) = true → message = Js.Str "Login failed")
    ∧ (∀ e, settled (AuthContext.login email password) w = Some (Rejected e) →
            error = Js.Obj e)
    ∧ console (snd (AuthContext.login email password w))
      = (console w ++ [("Login error:", error)])%list
    ∧ auth (snd (AuthContext.login email password w)) = auth w
    ∧ localStorage (snd (AuthContext.login email password w)) = localStorage w
    ∧ axios_defaults_headers_common (snd (AuthContext.login email password w))
      = axios_defaults_headers_common w.
Proof.
  unfold settled, sent. unfold_eff. cbn.
  destruct (server w (requests w) _) as [body|e] eqn:Hreply; cbn.
  - destruct (Js.nullish body) eqn:Hbody; cbn.
    + intros _. eexists _, _. rewrite drop_app_length, Hreply.
      repeat split; try reflexivity; try discriminate;
        try (intros s Hdetail; discriminate Hdetail).
    + destruct (storage_full w) eqn:Hfull; cbn.
      * intros _. eexists _, _. rewrite drop_app_length, Hreply.
        repeat split; try reflexivity; try discriminate;
          try (intros s Hdetail; discriminate Hdetail).
      * intros Hfailed. contradiction Hfailed. reflexivity.
  - intros _. rewrite drop_app_length, Hreply.
    exists (Js.Obj e), (Js.or (detail_of (Js.Obj e)) (Js.Str "Login failed")).
    repeat split; try reflexivity.
    + apply or_truthy.
    + apply or_falsy.
    + intros s Hdetail Hnonempty. rewrite Hdetail. apply or_truthy. cbn.
      destruct (String.eqb s "") eqn:Hempty; [|reflexivity].
      apply String.eqb_eq in Hempty. contradiction.
    + intros Habsent. apply or_falsy, nullish_falsy. exact Habsent.
    + intros e' [= ->]. reflexivity.
Qed.

(** *** Cart store: following the authentication flag *)

(** C7.  When [isAuthenticated] differs from what it was at the last run
    of the effect: if it has become true the effect sends one request,
    [GET /basket/]; if it has become false it sets the snapshot to [null]
    and sends nothing.  A further render under the same flag runs nothing
    more. *)
Theorem authentication_flag_transition (was now : bool) (w : World) :
  cart_effect_deps (cart w) = Some was →
  was ≠ now →
  (if now
   then ∃ req, sent (CartContext.effects now) w = [req]
               ∧ method req = GET
               ∧ url req = CartContext.API_BASE +:+ "/basket/"
   else basket (cart (snd (CartContext.effects now w))) = Js.Null
        ∧ sent (CartContext.effects now) w = [])
  ∧ CartContext.effects now (snd (CartContext.effects now w))
    = (Normal (), snd (CartContext.effects now w)).
Proof.
  intros Hlast Hchanged.
  assert (Hrun : deps_changed Bool.eqb (cart_effect_deps (cart w)) now = true).
  { rewrite Hlast. destruct was, now; try reflexivity; contradiction Hchanged; reflexivity. }
  unfold sent, CartContext.effects, CartContext.on_isAuthenticated.
  unfold_eff. cbn. rewrite Hrun. clear Hlast Hchanged Hrun was.
  destruct now; cbn.
  - destruct (server w (requests w) _); cbn; rewrite drop_app_length; eauto.
  - rewrite drop_all. eauto.
Qed.

(** *** Renders *)

Ltac unfold_app :=
  unfold booted, credential, persisted_token, App.initialize, App.mount, App.commit,
    CartContext.CartProvider, AuthContext.useAuth, useContext,
    AuthContext.AuthProvider, AuthContext.effects, CartContext.effects,
    CartContext.on_isAuthenticated, AuthContext.useState_initial,
    CartContext.useState_initial, AuthContext.configure_axios_defaults,
    AuthContext.checkAuth in *;
  unfold_eff;
  unfold page_load, with_cart, with_auth, with_headers, with_localStorage,
    with_requests, with_console in *.

Lemma cart_effects_idle (flag : bool) (w : World) :
  cart_effect_deps (cart w) = Some flag →
  CartContext.effects flag w = (Normal (), w).
Proof.
  intros Hlast. unfold CartContext.effects, gets, mbind, mret, Eff_bind, Eff_ret.
  cbn. rewrite Hlast. cbn. rewrite Bool.eqb_reflx. reflexivity.
Qed.

Lemma auth_effects_idle (rendered : Js.value) (w : World) :
  deps_changed Js.Object_is (token_effect_deps (auth w)) rendered = false →
  mount_effect_ran (auth w) = true →
  AuthContext.effects rendered w = (Normal (), w).
Proof.
  intros Hlast Hran. unfold AuthContext.effects, gets, mbind, mret, Eff_bind, Eff_ret.
  cbn. rewrite Hlast. cbn. rewrite Hran. reflexivity.
Qed.

(** A render in a world where no effect is due changes nothing. *)
Lemma commit_idle (w : World) : App.idle w = true → App.commit w = (Normal (), w).
Proof.
  unfold App.idle. intros Hidle.
  apply andb_prop in Hidle as [Hidle Hran].
  apply andb_prop in Hidle as [Hcart Htoken].
  apply bool_decide_eq_true in Hcart. apply negb_true_iff in Htoken.
  unfold App.commit, gets, mbind, mret, Eff_bind, Eff_ret. cbn.
  rewrite (cart_effects_idle _ _ Hcart).
  apply auth_effects_idle; assumption.
Qed.

Lemma settle_idle (n : nat) (w : World) :
  App.idle w = true → App.settle n w = (Normal (), w).
Proof.
  intros Hidle. induction n as [|n IH]; [reflexivity|].
  cbn [App.settle]. unfold mbind, Eff_bind. rewrite (commit_idle _ Hidle). exact IH.
Qed.

(** What start-up computes, by the persisted token and the reply to its
    validation. *)
Lemma booted_cases (storage : gmap string string) (full : bool) (srv : Server) :
  booted storage full srv
  = match storage !! "token" with
    | None =>
        mkWorld storage full (delete "Authorization" ∅) srv [] []
          (mkAuthState Js.Null false Js.Null (Some Js.Null) true)
          (mkCartState Js.Null false (Some false))
    | Some t =>
        if String.eqb t ""
        then mkWorld storage full (delete "Authorization" ∅) srv [] []
               (mkAuthState Js.Null false (Js.Str t) (Some (Js.Str t)) true)
               (mkCartState Js.Null false (Some false))
        else match srv [] (validation_request t) with
             | Fulfilled body =>
                 mkWorld storage full (headers (validation_request t)) srv
                   [validation_request t] []
                   (mkAuthState body false (Js.Str t) (Some (Js.Str t)) true)
                   (mkCartState Js.Null false (Some false))
             | Rejected e =>
                 mkWorld (delete "token" storage) full
                   (delete "Authorization" (headers (validation_request t))) srv
                   [validation_request t] [("Auth check failed:", Js.Obj e)]
                   (mkAuthState Js.Null false (Js.Str t) (Some (Js.Str t)) true)
                   (mkCartState Js.Null false (Some false))
             end
    end.
Proof.
  unfold validation_request. unfold_app. cbn.
  destruct (storage !! "token") as [t|] eqn:Hsaved; cbn; rewrite ?Hsaved; cbn;
    [|reflexivity].
  destruct (String.eqb t "") eqn:Hempty; cbn; rewrite ?Hsaved; cbn; rewrite ?Hempty; cbn;
    [reflexivity|].
  destruct (srv [] _); reflexivity.
Qed.

(** A rejected validation, read off [booted_cases]. *)
Lemma booted_rejected (storage : gmap string string) (full : bool) (srv : Server)
    (e : list (string * Js.value)) :
  settled App.initialize (page_load storage full srv) = Some (Rejected e) →
  ∃ t, storage !! "token" = Some t
       ∧ booted storage full srv
         = mkWorld (delete "token" storage) full
             (delete "Authorization" (headers (validation_request t))) srv
             [validation_request t] [("Auth check failed:", Js.Obj e)]
             (mkAuthState Js.Null false (Js.Str t) (Some (Js.Str t)) true)
             (mkCartState Js.Null false (Some false)).
Proof.
  change (settled App.initialize (page_load storage full srv))
    with (match requests (booted storage full srv) with
          | [req] => Some (srv [] req)
          | _ => None
          end).
  rewrite booted_cases.
  destruct (storage !! "token") as [t|]; [|discriminate].
  destruct (String.eqb t ""); [discriminate|].
  destruct (srv [] (validation_request t)) as [body|e'] eqn:Hreply; cbn.
  - rewrite Hreply. discriminate.
  - rewrite Hreply. intros [= ->]. exists t. split; reflexivity.
Qed.

Lemma cart_effects_result (flag : bool) (w : World) :
  fst (CartContext.effects flag w) = Normal ()
  ∧ auth (snd (CartContext.effects flag w)) = auth w
  ∧ cart_effect_deps (cart (snd (CartContext.effects flag w))) = Some flag.
Proof.
  unfold CartContext.effects, CartContext.on_isAuthenticated. unfold_eff.
  unfold with_cart, with_requests, with_console. cbn.
  destruct (cart_effect_deps (cart w)) as [last|] eqn:Hlast; cbn.
  - destruct (Bool.eqb last flag) eqn:Hsame; cbn.
    + apply Bool.eqb_prop in Hsame. subst last. repeat split. exact Hlast.
    + destruct flag; cbn; [destruct (server w (requests w) _)|]; repeat split.
  - destruct flag; cbn; [destruct (server w (requests w) _)|]; repeat split.
Qed.

Lemma auth_effects_result (rendered : Js.value) (w : World) :
  mount_effect_ran (auth w) = true →
  Js.Object_is rendered rendered = true →
  cart (snd (AuthContext.effects rendered w)) = cart w
  ∧ user (auth (snd (AuthContext.effects rendered w))) = user (auth w)
  ∧ token (auth (snd (AuthContext.effects rendered w))) = token (auth w)
  ∧ mount_effect_ran (auth (snd (AuthContext.effects rendered w))) = true
  ∧ deps_changed Js.Object_is
      (token_effect_deps (auth (snd (AuthContext.effects rendered w)))) rendered = false.
Proof.
  intros Hran Hsame.
  unfold AuthContext.effects, AuthContext.configure_axios_defaults. unfold_eff.
  unfold with_auth, with_headers. cbn.
  destruct (deps_changed Js.Object_is (token_effect_deps (auth w)) rendered) eqn:Hdue; cbn.
  - destruct (Js.truthy rendered); cbn; rewrite Hran; cbn; rewrite Hsame;
      repeat split; assumption.
  - rewrite Hran. cbn. repeat split; assumption.
Qed.

(** Once the mount effect has run, one render brings the world to rest:
    the next render finds no effect due.  (The token is a primitive, so
    that it is the same as itself to [Object.is].) *)
Lemma commit_reaches_idle (w : World) :
  mount_effect_ran (auth w) = true →
  Js.Object_is (token (auth w)) (token (auth w)) = true →
  App.idle (snd (App.commit w)) = true.
Proof.
  intros Hran Hsame.
  unfold App.commit, gets, mbind, mret, Eff_bind, Eff_ret. cbn.
  destruct (cart_effects_result (Js.truthy (user (auth w))) w) as (Hdone & Hauth & Hcart).
  destruct (CartContext.effects (Js.truthy (user (auth w))) w) as [c w1].
  cbn in Hdone, Hauth, Hcart. subst c.
  rewrite <- Hauth in Hran.
  destruct (auth_effects_result (token (auth w)) w1 Hran Hsame)
    as (Hcart' & Huser & Htoken & Hran' & Hdeps).
  set (w2 := snd (AuthContext.effects (token (auth w)) w1)) in *.
  unfold App.idle.
  apply andb_true_intro. split; [apply andb_true_intro; split|exact Hran'].
  - apply bool_decide_eq_true_2. congruence.
  - apply negb_true_iff. replace (token (auth w2)) with (token (auth w)) by congruence.
    exact Hdeps.
Qed.

(** *** Session store: start-up with a token that fails validation *)

(** C3.  When the request of [checkAuth] is rejected (which presupposes a
    persisted token), start-up ends with no persisted token and with
    [isAuthenticated] false.  The validation was attempted once: the log
    holds that one request to [/auth/me], no later render sends or changes
    anything, and a restart from the storage left behind sends nothing. *)
Theorem failed_validation_drops_token
    (storage : gmap string string) (full : bool) (srv : Server)
    (e : list (string * Js.value)) :
  settled App.initialize (page_load storage full srv) = Some (Rejected e) →
  (∃ t, storage !! "token" = Some t)
  ∧ persisted_token (booted storage full srv) = None
  ∧ AuthContext.value_isAuthenticated
      (AuthContext.AuthProvider (booted storage full srv)) = false
  ∧ (∃ req, requests (booted storage full srv) = [req]
            ∧ method req = GET
            ∧ url req = AuthContext.API_BASE +:+ "/auth/me")
  ∧ (∀ n, App.settle n (booted storage full srv)
          = (Normal (), booted storage full srv))
  ∧ (∀ srv', sent App.initialize
               (page_load (localStorage (booted storage full srv)) full srv') = []).
Proof.
  intros Hrejected.
  destruct (booted_rejected storage full srv e Hrejected) as (t & Hsaved & ->).
  unfold persisted_token. cbn. repeat split; eauto.
  - apply lookup_delete_eq.
  - intros n. apply settle_idle. unfold App.idle. cbn.
    rewrite String.eqb_refl. reflexivity.
  - intros srv'.
    change (snd (App.initialize (page_load (delete "token" storage) full srv')))
      with (booted (delete "token" storage) full srv').
    rewrite booted_cases, lookup_delete_eq. reflexivity.
Qed.

(** Whatever the token and the rejection, the token cell keeps the token
    that failed. *)
Lemma failed_validation_keeps_token_cell
    (storage : gmap string string) (full : bool) (srv : Server)
    (e : list (string * Js.value)) :
  settled App.initialize (page_load storage full srv) = Some (Rejected e) →
  ∃ t, storage !! "token" = Some t
       ∧ token (auth (booted storage full srv)) = Js.Str t
       ∧ user (auth (booted storage full srv)) = Js.Null.
Proof.
  intros Hrejected.
  destruct (booted_rejected storage full srv e Hrejected) as (t & Hsaved & ->).
  exists t. repeat split. exact Hsaved.
Qed.

(** C4.  At start-up with the persisted token "stale" and a server that
    refuses it, the user cell is [null] and the persisted token and the
    credential are gone, but the token cell, and with it the [token] of
    the context value, still holds "stale"; [logout], the other clearing
    path, empties both cells. *)
Theorem failed_validation_leaves_token_cell :
  token (auth (@booted sample_engine sample_deployment {["token" := "stale"]} false
                 (refuses (Js.Str "Could not validate credentials")))) = Js.Str "stale"
  ∧ AuthContext.value_token
      (@AuthContext.AuthProvider sample_engine sample_deployment
         (@booted sample_engine sample_deployment {["token" := "stale"]} false
            (refuses (Js.Str "Could not validate credentials")))) = Js.Str "stale"
  ∧ user (auth (@booted sample_engine sample_deployment {["token" := "stale"]} false
                  (refuses (Js.Str "Could not validate credentials")))) = Js.Null
  ∧ persisted_token
      (@booted sample_engine sample_deployment {["token" := "stale"]} false
         (refuses (Js.Str "Could not validate credentials"))) = None
  ∧ credential
      (@booted sample_engine sample_deployment {["token" := "stale"]} false
         (refuses (Js.Str "Could not validate credentials"))) = None
  ∧ ∀ w, token (auth (snd (AuthContext.logout w))) = Js.Null
         ∧ user (auth (snd (AuthContext.logout w))) = Js.Null.
Proof. repeat split; vm_compute; reflexivity. Qed.

(** *** The credential and the persisted token *)

Lemma frames_refl (w : World) : frames w w.
Proof.
  repeat split. exists []. split; [symmetry; apply app_nil_r | constructor].
Qed.

Lemma frames_trans (w1 w2 w3 : World) : frames w1 w2 → frames w2 w3 → frames w1 w3.
Proof.
  intros (Hs & Hh & Hv & Ht & Hd & Hm & new & Hr & Hnew)
         (Hs' & Hh' & Hv' & Ht' & Hd' & Hm' & new' & Hr' & Hnew').
  repeat split; try congruence.
  exists (new ++ new')%list. split.
  - rewrite Hr', Hr. symmetry. apply app_assoc.
  - apply Forall_app. split; [assumption|]. rewrite <- Hh. assumption.
Qed.

Ltac solve_frames :=
  cbn; repeat split;
  first [ exists []; split; [symmetry; apply app_nil_r | constructor]
        | eexists [_]; split; [reflexivity | repeat constructor] ].

Lemma operate_frames (flag : bool) (op : Operation) (w : World) :
  frames w (snd (operate flag op w)).
Proof.
  destruct flag; [|rewrite operate_disabled; apply frames_refl].
  destruct op as [|[]|]; unfold_eff; cbn;
    destruct (server w (requests w) _); solve_frames.
Qed.



Lemma cart_effects_frames (flag : bool) (w : World) :
  frames w (snd (CartContext.effects flag w)).
Proof.
  unfold CartContext.effects, CartContext.on_isAuthenticated. unfold_eff. cbn.
  destruct (deps_changed Bool.eqb (cart_effect_deps (cart w)) flag); cbn;
    [|apply frames_refl].
  destruct flag; cbn; [destruct (server w (requests w) _)|]; solve_frames.
Qed.

















(** *** The two hooks *)

(** C10.  [useAuth] and [useCart] throw an [Error] when no provider
    encloses the caller, and answer the nearest provider's [value] object
    otherwise; below [AuthProvider] that is the object of its render. *)
Theorem hooks_require_provider :
  AuthContext.useAuth [] = Throw (Js.Error "useAuth must be used within an AuthProvider")
  ∧ CartContext.useCart [] = Throw (Js.Error "useCart must be used within a CartProvider")
  ∧ (∀ v outer, AuthContext.useAuth (v :: outer) = Normal v)
  ∧ (∀ v outer, CartContext.useCart (v :: outer) = Normal v)
  ∧ (∀ w, AuthContext.useAuth [AuthContext.AuthProvider w]
          = Normal (AuthContext.AuthProvider w)).
Proof. repeat split. Qed.

(** *** Session store: the other operations *)

(** X1.  A [register] call that does not succeed answers
    [{ success: false, error: message }] with the [detail] of the error
    response when it is truthy and 'Registration failed' otherwise; it has
    logged the error, and the session cells, the storage, the default
    headers and the cart are as they were. *)
Theorem failed_register_reports_and_keeps_state
    (email password fullName location : Js.value) (w : World) :
  fst (AuthContext.register email password fullName location w) ≠ Normal success →
  ∃ error message,
    fst (AuthContext.register email password fullName location w)
    = Normal (failure message)
    ∧ (Js.truthy (detail_of error) = true → message = detail_of error)
    ∧ (Js.truthy (detail_of error) = false → message = Js.Str "Registration failed")
    ∧ (∀ e, settled (AuthContext.register email password fullName location) w
            = Some (Rejected e) → error = Js.Obj e)
    ∧ console (snd (AuthContext.register email password fullName location w))
      = (console w ++ [("Registration error:", error)])%list
    ∧ auth (snd (AuthContext.register email password fullName location w)) = auth w
    ∧ localStorage (snd (AuthContext.register email password fullName location w))
      = localStorage w
    ∧ axios_defaults_headers_common
        (snd (AuthContext.register email password fullName location w))
      = axios_defaults_headers_common w
    ∧ cart (snd (AuthContext.register email password fullName location w)) = cart w.
Proof.
  unfold settled, sent. unfold_eff. cbn.
  destruct (server w (requests w) _) as [body|e] eqn:Hreply; cbn.
  - destruct (Js.nullish body) eqn:Hbody; cbn.
    + intros _. eexists _, _. rewrite drop_app_length, Hreply.
      repeat split; try reflexivity; try discriminate.
    + destruct (storage_full w) eqn:Hfull; cbn.
      * intros _. eexists _, _. rewrite drop_app_length, Hreply.
        repeat split; try reflexivity; try discriminate.
      * intros Hfailed. contradiction Hfailed. reflexivity.
  - intros _. rewrite drop_app_length, Hreply.
    exists (Js.Obj e), (Js.or (detail_of (Js.Obj e)) (Js.Str "Registration failed")).
    repeat split; try reflexivity.
    + apply or_truthy.
    + apply or_falsy.
    + intros e' [= ->]. reflexivity.
Qed.

(** What [login] and [register] do, by the reply: the one request, and
    for a fulfilled one the three ways on. *)
Lemma sign_in_outcome (s : SignIn) (w : World) :
  ∃ req,
    requests (snd (sign_in s w)) = (requests w ++ [req])%list
    ∧ headers req = axios_defaults_headers_common w
    ∧ method req = POST
    ∧ url req = AuthContext.API_BASE +:+ match s with
                                         | ByLogin _ _ => "/auth/login"
                                         | ByRegister _ _ _ _ => "/auth/register"
                                         end
    ∧ match server w (requests w) req with
      | Fulfilled body =>
          if Js.nullish body || storage_full w
          then fst (sign_in s w) ≠ Normal success
               ∧ auth (snd (sign_in s w)) = auth w
          else fst (sign_in s w) = Normal success
               ∧ localStorage (snd (sign_in s w))
                 = <["token" := Js.ToString (Js.prop body "access_token")]> (localStorage w)
               ∧ axios_defaults_headers_common (snd (sign_in s w))
                 = <["Authorization" := "Bearer " +:+ Js.ToString (Js.prop body "access_token")]>
                     (axios_defaults_headers_common w)
               ∧ auth (snd (sign_in s w))
                 = mkAuthState (Js.prop body "user") (auth_loading (auth w))
                     (Js.prop body "access_token") (token_effect_deps (auth w))
                     (mount_effect_ran (auth w))
               ∧ cart (snd (sign_in s w)) = cart w
               ∧ console (snd (sign_in s w)) = console w
      | Rejected e =>
          fst (sign_in s w) ≠ Normal success ∧ auth (snd (sign_in s w)) = auth w
      end.
Proof.
  destruct s; unfold sign_in; unfold_eff;
    unfold with_auth, with_headers, with_localStorage, with_requests, with_console; cbn;
    match goal with
    | |- context [server w (requests w) ?r] => exists r
    end;
    destruct (server w (requests w) _) as [body|e]; cbn;
    try (destruct (Js.nullish body); cbn; try destruct (storage_full w); cbn);
    repeat split; try reflexivity; try discriminate.
Qed.



(** X4.  [updateUser] sends one [PUT /auth/me] with the given data.  When
    it is fulfilled the user cell becomes the reply's body, whatever that
    is, and the answer is [{ success: true }]; when it is rejected the
    user cell stays and the answer carries the [detail] or 'Update
    failed'.  Either way the token cell, the storage, the default headers
    and the cart are as they were. *)
Theorem updateUser_replaces_profile_only (userData : Js.value) (w : World) :
  sent (AuthContext.updateUser userData) w
  = [mkRequest PUT (AuthContext.API_BASE +:+ "/auth/me") userData
       (axios_defaults_headers_common w)]
  ∧ token (auth (snd (AuthContext.updateUser userData w))) = token (auth w)
  ∧ localStorage (snd (AuthContext.updateUser userData w)) = localStorage w
  ∧ axios_defaults_headers_common (snd (AuthContext.updateUser userData w))
    = axios_defaults_headers_common w
  ∧ cart (snd (AuthContext.updateUser userData w)) = cart w
  ∧ match server w (requests w)
            (mkRequest PUT (AuthContext.API_BASE +:+ "/auth/me") userData
               (axios_defaults_headers_common w)) with
    | Fulfilled body =>
        fst (AuthContext.updateUser userData w) = Normal success
        ∧ user (auth (snd (AuthContext.updateUser userData w))) = body
    | Rejected e =>
        fst (AuthContext.updateUser userData w)
        = Normal (failure (Js.or (detail_of (Js.Obj e)) (Js.Str "Update failed")))
        ∧ user (auth (snd (AuthContext.updateUser userData w))) = user (auth w)
    end.
Proof.
  unfold sent. unfold_eff.
  unfold with_auth, with_requests, with_console. cbn.
  destruct (server w (requests w) _); cbn; rewrite drop_app_length; repeat split.
Qed.

(** [logout], computed. *)
Lemma logout_world (w : World) :
  AuthContext.logout w
  = (Normal (),
     mkWorld (delete "token" (localStorage w)) (storage_full w)
       (delete "Authorization" (axios_defaults_headers_common w))
       (server w) (requests w) (console w)
       (mkAuthState Js.Null (auth_loading (auth w)) Js.Null
          (token_effect_deps (auth w)) (mount_effect_ran (auth w)))
       (cart w)).
Proof. reflexivity. Qed.

(** X5.  [logout] is local and cannot fail: it sends nothing and throws
    nothing; afterwards no token is persisted, no credential is on the
    default headers, the token and user cells are [null] and
    [isAuthenticated] is false.  Other storage keys and other headers are
    untouched, the cart is left to the next render, and a second [logout]
    changes nothing. *)
Theorem logout_clears_locally (w : World) :
  fst (AuthContext.logout w) = Normal ()
  ∧ sent AuthContext.logout w = []
  ∧ persisted_token (snd (AuthContext.logout w)) = None
  ∧ credential (snd (AuthContext.logout w)) = None
  ∧ token (auth (snd (AuthContext.logout w))) = Js.Null
  ∧ user (auth (snd (AuthContext.logout w))) = Js.Null
  ∧ AuthContext.value_isAuthenticated (AuthContext.AuthProvider (snd (AuthContext.logout w)))
    = false
  ∧ (∀ key, key ≠ "token" →
       localStorage (snd (AuthContext.logout w)) !! key = localStorage w !! key)
  ∧ (∀ name, name ≠ "Authorization" →
       axios_defaults_headers_common (snd (AuthContext.logout w)) !! name
       = axios_defaults_headers_common w !! name)
  ∧ cart (snd (AuthContext.logout w)) = cart w
  ∧ AuthContext.logout (snd (AuthContext.logout w))
    = (Normal (), snd (AuthContext.logout w)).
Proof.
  unfold sent, persisted_token, credential. rewrite !logout_world.
  cbn [fst snd localStorage axios_defaults_headers_common requests auth cart token user
       AuthContext.AuthProvider AuthContext.value_isAuthenticated Js.truthy].
  repeat split; try apply lookup_delete_eq.
  - apply drop_all.
  - intros key Hkey. apply lookup_delete_ne. congruence.
  - intros name Hname. apply lookup_delete_ne. congruence.
  - rewrite !delete_delete_eq. reflexivity.
Qed.


(** *** Start-up *)

Lemma initialize_completes (storage : gmap string string) (full : bool) (srv : Server) :
  fst (App.initialize (page_load storage full srv)) = Normal ().
Proof.
  unfold_app. cbn.
  destruct (storage !! "token") as [t|] eqn:Hsaved; cbn; rewrite ?Hsaved; cbn;
    [|reflexivity].
  destruct (String.eqb t "") eqn:Hempty; cbn; rewrite ?Hsaved; cbn; rewrite ?Hempty; cbn;
    [reflexivity|].
  repeat match goal with
         | |- context [match ?reply with Fulfilled _ => _ | Rejected _ => _ end] =>
             destruct reply
         end;
    reflexivity.
Qed.

(** X6.  Start-up always comes to an end: it throws nothing, leaves
    [loading] false and the basket [null], touches no storage key but
    [token], and sends at most one request; it sends none exactly when
    no token, or an empty one, is persisted. *)
Theorem startup_always_finishes
    (storage : gmap string string) (full : bool) (srv : Server) :
  fst (App.initialize (page_load storage full srv)) = Normal ()
  ∧ auth_loading (auth (booted storage full srv)) = false
  ∧ mount_effect_ran (auth (booted storage full srv)) = true
  ∧ basket (cart (booted storage full srv)) = Js.Null
  ∧ (length (requests (booted storage full srv)) ≤ 1)%nat
  ∧ (requests (booted storage full srv) = []
     ↔ storage !! "token" = None ∨ storage !! "token" = Some "")
  ∧ (∀ key, key ≠ "token" → localStorage (booted storage full srv) !! key = storage !! key).
Proof.
  split; [apply initialize_completes|].
  rewrite booted_cases.
  destruct (storage !! "token") as [t|] eqn:Hsaved.
  - destruct (String.eqb t "") eqn:Hempty.
    + apply String.eqb_eq in Hempty. subst t. cbn. repeat split; auto.
    + assert (Hnonempty : t ≠ "") by (intros ->; discriminate Hempty).
      destruct (srv [] (validation_request t)); cbn; repeat split; auto;
        try discriminate; try (intros [Hno|Hno]; congruence).
      intros key Hkey. apply lookup_delete_ne. congruence.
  - cbn. repeat split; auto.
Qed.

(** A fulfilled validation, read off [booted_cases]. *)
Lemma booted_fulfilled (storage : gmap string string) (full : bool) (srv : Server)
    (body : Js.value) :
  settled App.initialize (page_load storage full srv) = Some (Fulfilled body) →
  ∃ t, storage !! "token" = Some t
       ∧ t ≠ ""
       ∧ booted storage full srv
         = mkWorld storage full (headers (validation_request t)) srv
             [validation_request t] []
             (mkAuthState body false (Js.Str t) (Some (Js.Str t)) true)
             (mkCartState Js.Null false (Some false)).
Proof.
  change (settled App.initialize (page_load storage full srv))
    with (match requests (booted storage full srv) with
          | [req] => Some (srv [] req)
          | _ => None
          end).
  rewrite booted_cases.
  destruct (storage !! "token") as [t|]; [|discriminate].
  destruct (String.eqb t "") eqn:Hempty; [discriminate|].
  destruct (srv [] (validation_request t)) as [body'|e] eqn:Hreply; cbn.
  - rewrite Hreply. intros [= ->]. exists t. repeat split. intros ->. discriminate Hempty.
  - rewrite Hreply. discriminate.
Qed.

(** X7.  When the request of [checkAuth] is fulfilled, the user cell is
    the reply's body, whatever it is; the token cell holds the persisted
    token, which stays persisted, and its bearer form is the credential.
    Nothing was logged, and that request, sent under the same credential,
    is the only one. *)
Theorem fulfilled_validation_restores_session
    (storage : gmap string string) (full : bool) (srv : Server) (body : Js.value) :
  settled App.initialize (page_load storage full srv) = Some (Fulfilled body) →
  ∃ t, storage !! "token" = Some t
       ∧ t ≠ ""
       ∧ user (auth (booted storage full srv)) = body
       ∧ AuthContext.value_isAuthenticated
           (AuthContext.AuthProvider (booted storage full srv)) = Js.truthy body
       ∧ token (auth (booted storage full srv)) = Js.Str t
       ∧ localStorage (booted storage full srv) = storage
       ∧ credential (booted storage full srv) = Some ("Bearer " +:+ t)
       ∧ console (booted storage full srv) = []
       ∧ (∃ req, requests (booted storage full srv) = [req]
                 ∧ method req = GET
                 ∧ url req = AuthContext.API_BASE +:+ "/auth/me"
                 ∧ carries (Some ("Bearer " +:+ t)) req).
Proof.
  intros Hfulfilled.
  destruct (booted_fulfilled storage full srv body Hfulfilled) as (t & Hsaved & Hnonempty & ->).
  exists t. unfold credential, carries. cbn.
  do 8 (split; [first [assumption | reflexivity | apply lookup_insert_eq]|]).
  exists (validation_request t). repeat split; try apply lookup_insert_eq.
Qed.



(** *** Cart store: what the operations leave alone *)

(** What an operation called while authenticated leaves alone. *)
Lemma operate_untouched (op : Operation) (w : World) :
  auth (snd (operate true op w)) = auth w
  ∧ localStorage (snd (operate true op w)) = localStorage w
  ∧ axios_defaults_headers_common (snd (operate true op w))
    = axios_defaults_headers_common w
  ∧ storage_full (snd (operate true op w)) = storage_full w
  ∧ server (snd (operate true op w)) = server w
  ∧ cart_effect_deps (cart (snd (operate true op w))) = cart_effect_deps (cart w)
  ∧ match op with
    | FetchSummary => cart (snd (operate true op w)) = cart w
    | _ => cart_loading (cart (snd (operate true op w))) = false
    end.
Proof.
  destruct op as [|[]|]; unfold_eff;
    unfold with_cart, with_requests, with_console; cbn;
    destruct (server w (requests w) _); cbn; repeat split;
    destruct (cart w); reflexivity.
Qed.

(** X9.  A [fetchBasket] whose request is fulfilled leaves as snapshot
    exactly the body of the reply, with [loading] false, and answers
    [undefined]. *)
Theorem fetch_replaces_snapshot (isAuthenticated : bool) (w : World) (body : Js.value) :
  settled (CartContext.fetchBasket isAuthenticated) w = Some (Fulfilled body) →
  fst (CartContext.fetchBasket isAuthenticated w) = Normal Js.Undefined
  ∧ basket (cart (snd (CartContext.fetchBasket isAuthenticated w))) = body
  ∧ cart_loading (cart (snd (CartContext.fetchBasket isAuthenticated w))) = false.
Proof.
  destruct isAuthenticated.
  - destruct (operate_outcome Fetch w) as (req & Hsent & Hreply).
    destruct (operate_untouched Fetch w) as (_ & _ & _ & _ & _ & _ & Hloading).
    change (operate true Fetch) with (CartContext.fetchBasket true) in *.
    unfold settled. rewrite (sent_one _ _ _ Hsent).
    intros [= Hfulfilled]. rewrite Hfulfilled in Hreply.
    destruct Hreply as (Hresult & Hbasket). auto.
  - unfold settled. rewrite sent_none by reflexivity. discriminate.
Qed.

(** X10.  Whatever the reply, [fetchBasket] and the four mutating
    operations end with [loading] false, and [getBasketSummary] leaves
    the whole cart state (snapshot and [loading]) as it was. *)
Theorem operations_end_not_loading (op : Operation) (w : World) :
  match op with
  | FetchSummary => cart (snd (operate true op w)) = cart w
  | _ => cart_loading (cart (snd (operate true op w))) = false
  end.
Proof. apply operate_untouched. Qed.

(** X11.  No operation of the cart store, authenticated or not, touches
    the session: the token and user cells, the storage and the default
    headers are as they were, and the request log has grown by at most
    one request, sent under those headers. *)
Theorem cart_operations_leave_session (isAuthenticated : bool) (op : Operation) (w : World) :
  auth (snd (operate isAuthenticated op w)) = auth w
  ∧ localStorage (snd (operate isAuthenticated op w)) = localStorage w
  ∧ axios_defaults_headers_common (snd (operate isAuthenticated op w))
    = axios_defaults_headers_common w
  ∧ ∃ new, requests (snd (operate isAuthenticated op w)) = (requests w ++ new)%list
           ∧ (length new ≤ 1)%nat
           ∧ Forall (λ req, headers req = axios_defaults_headers_common w) new.
Proof.
  destruct isAuthenticated.
  - destruct (operate_untouched op w) as (Hauth & Hstorage & Hheaders & _).
    destruct (operate_outcome op w) as (req & Hsent & _).
    destruct (operate_frames true op w) as (_ & _ & _ & _ & _ & _ & new & Hnew & Hunder).
    do 3 (split; [assumption|]).
    exists new. split; [assumption|]. split; [|assumption].
    rewrite Hsent in Hnew. apply app_inv_head in Hnew. subst new. reflexivity.
  - rewrite operate_disabled. cbn. do 3 (split; [reflexivity|]).
    exists []. split; [symmetry; apply app_nil_r|]. split; [cbn; lia|constructor].
Qed.


(** *** Invariants of a session *)

Lemma sign_in_untouched (s : SignIn) (w : World) :
  cart (snd (sign_in s w)) = cart w
  ∧ mount_effect_ran (auth (snd (sign_in s w))) = mount_effect_ran (auth w)
  ∧ server (snd (sign_in s w)) = server w.
Proof.
  destruct s; unfold sign_in; unfold_eff;
    unfold with_auth, with_headers, with_localStorage, with_requests, with_console; cbn;
    destruct (server w (requests w) _) as [body|e]; cbn;
    try (destruct (Js.nullish body); cbn; try destruct (storage_full w); cbn);
    repeat split.
Qed.

Lemma updateUser_untouched (userData : Js.value) (w : World) :
  cart (snd (AuthContext.updateUser userData w)) = cart w
  ∧ mount_effect_ran (auth (snd (AuthContext.updateUser userData w)))
    = mount_effect_ran (auth w)
  ∧ token (auth (snd (AuthContext.updateUser userData w))) = token (auth w)
  ∧ server (snd (AuthContext.updateUser userData w)) = server w.
Proof.
  unfold_eff. unfold with_auth, with_requests, with_console. cbn.
  destruct (server w (requests w) _); cbn; repeat split.
Qed.

Lemma operate_keeps_auth (flag : bool) (op : Operation) (w : World) :
  auth (snd (operate flag op w)) = auth w
  ∧ server (snd (operate flag op w)) = server w.
Proof.
  destruct flag.
  - destruct (operate_untouched op w) as (Hauth & _ & _ & _ & Hserver & _). auto.
  - rewrite operate_disabled. auto.
Qed.

Lemma handler_cart (op : Operation) (w : World) :
  snd (handler (Cart op) w) = snd (operate (Js.truthy (user (auth w))) op w).
Proof. destruct op as [|[]|]; reflexivity. Qed.

Lemma auth_effects_frame (rendered : Js.value) (w : World) :
  mount_effect_ran (auth w) = true →
  fst (AuthContext.effects rendered w) = Normal ()
  ∧ cart (snd (AuthContext.effects rendered w)) = cart w
  ∧ user (auth (snd (AuthContext.effects rendered w))) = user (auth w)
  ∧ token (auth (snd (AuthContext.effects rendered w))) = token (auth w)
  ∧ mount_effect_ran (auth (snd (AuthContext.effects rendered w))) = true
  ∧ server (snd (AuthContext.effects rendered w)) = server w.
Proof.
  intros Hran.
  unfold AuthContext.effects, AuthContext.configure_axios_defaults. unfold_eff.
  unfold with_auth, with_headers. cbn.
  destruct (deps_changed Js.Object_is (token_effect_deps (auth w)) rendered); cbn.
  - destruct (Js.truthy rendered); cbn; rewrite Hran; cbn; repeat split; assumption.
  - rewrite Hran. cbn. repeat split; assumption.
Qed.


Lemma cart_effects_server (flag : bool) (w : World) :
  server (snd (CartContext.effects flag w)) = server w.
Proof. apply (cart_effects_frames flag w). Qed.

(** What one render does to a world whose start-up is over. *)
Lemma commit_after_startup (w : World) :
  mount_effect_ran (auth w) = true →
  fst (App.commit w) = Normal ()
  ∧ auth_loading (auth (snd (App.commit w))) = auth_loading (auth w)
  ∧ user (auth (snd (App.commit w))) = user (auth w)
  ∧ token (auth (snd (App.commit w))) = token (auth w)
  ∧ mount_effect_ran (auth (snd (App.commit w))) = true
  ∧ server (snd (App.commit w)) = server w
  ∧ cart (snd (App.commit w))
    = cart (snd (CartContext.effects (Js.truthy (user (auth w))) w)).
Proof.
  intros Hran.
  unfold App.commit, gets, mbind, mret, Eff_bind, Eff_ret. cbn.
  destruct (cart_effects_result (Js.truthy (user (auth w))) w) as (Hdone & Hauth & _).
  pose proof (cart_effects_server (Js.truthy (user (auth w))) w) as Hserver.
  destruct (CartContext.effects (Js.truthy (user (auth w))) w) as [c w1].
  cbn in Hdone, Hauth, Hserver |- *. subst c.
  rewrite <- Hauth in Hran.
  destruct (auth_effects_frame (token (auth w)) w1 Hran)
    as (Hdone' & Hcart & Huser & Htoken & Hran' & Hserver').
  assert (Hloading : auth_loading (auth (snd (AuthContext.effects (token (auth w)) w1)))
                     = auth_loading (auth w1)).
  { clear -Hran. unfold AuthContext.effects, AuthContext.configure_axios_defaults.
    unfold_eff. unfold with_auth, with_headers. cbn.
    destruct (deps_changed Js.Object_is (token_effect_deps (auth w1)) (token (auth w)));
      cbn; [destruct (Js.truthy (token (auth w))); cbn|]; rewrite Hran; reflexivity. }
  repeat split; congruence.
Qed.





Lemma handler_completes (ev : Event) (w : World) : fst (handler ev w) = Normal ().
Proof. destruct ev as [| | | |[|[]|]]; reflexivity. Qed.


Lemma handle_completes (ev : Event) (w : World) :
  mount_effect_ran (auth w) = true → fst (handle ev w) = Normal ().
Proof.
  intros Hran. unfold handle, mbind, Eff_bind.
  pose proof (handler_completes ev w) as Hdone.
  assert (Hran1 : mount_effect_ran (auth (snd (handler ev w))) = true).
  { destruct ev as [email password|email password fullName location| |userData|op].
    - change (snd (handler (Login email password) w))
        with (snd (sign_in (ByLogin email password) w)).
      destruct (sign_in_untouched (ByLogin email password) w) as (_ & -> & _). exact Hran.
    - change (snd (handler (Register email password fullName location) w))
        with (snd (sign_in (ByRegister email password fullName location) w)).
      destruct (sign_in_untouched (ByRegister email password fullName location) w)
        as (_ & -> & _). exact Hran.
    - exact Hran.
    - change (snd (handler (UpdateUser userData) w))
        with (snd (AuthContext.updateUser userData w)).
      destruct (updateUser_untouched userData w) as (_ & -> & _). exact Hran.
    - rewrite handler_cart.
      destruct (operate_keeps_auth (Js.truthy (user (auth w))) op w) as (-> & _).
      exact Hran. }
  destruct (handler ev w) as [c w1]. cbn in Hdone, Hran1. subst c.
  cbn [App.settle]. unfold mbind, Eff_bind.
  destruct (commit_after_startup w1 Hran1) as (Hdone1 & _ & _ & _ & Hran2 & _).
  destruct (App.commit w1) as [c w2]. cbn in Hdone1, Hran2. subst c.
  destruct (commit_after_startup w2 Hran2) as (Hdone2 & _).
  destruct (App.commit w2) as [c w3]. cbn in Hdone2. subst c. reflexivity.
Qed.


Lemma booted_cart_behind (storage : gmap string string) (full : bool) (srv : Server) :
  cart_behind (booted storage full srv).
Proof.
  rewrite booted_cases. unfold cart_behind.
  destruct (storage !! "token") as [t|]; [destruct (String.eqb t "");
    [|destruct (srv [] (validation_request t))]|];
    cbn; (split; [reflexivity|]); exists false; split; reflexivity.
Qed.

Lemma bind_normal {A B} (m : Eff A) (k : A → Eff B) (w : World) (a : A) :
  fst (m w) = Normal a → (m ≫= k) w = k a (snd (m w)).
Proof.
  unfold mbind, Eff_bind. destruct (m w) as [c w1]. cbn. intros ->. reflexivity.
Qed.

(** A session, as the steps after start-up. *)
Lemma session_unfold (storage : gmap string string) (full : bool) (srv : Server)
    (evs : list Event) :
  session evs (page_load storage full srv)
  = run evs (snd (App.commit (booted storage full srv)))
  ∧ fst (App.commit (booted storage full srv)) = Normal ()
  ∧ mount_effect_ran (auth (snd (App.commit (booted storage full srv)))) = true.
Proof.
  assert (Hran : mount_effect_ran (auth (booted storage full srv)) = true)
    by apply booted_cart_behind.
  destruct (commit_after_startup _ Hran) as (Hdone & _ & _ & _ & Hran' & _).
  split; [|split; assumption].
  unfold session.
  rewrite (bind_normal _ _ _ () (initialize_completes storage full srv)).
  change (snd (App.initialize (page_load storage full srv)))
    with (booted storage full srv).
  cbn [App.settle].
  rewrite (bind_normal (App.commit ≫= λ _, mret ()) _ _ ()).
  - rewrite (bind_normal _ _ _ () Hdone). reflexivity.
  - rewrite (bind_normal _ _ _ () Hdone). reflexivity.
Qed.

Lemma reached_unfold (storage : gmap string string) (full : bool) (srv : Server)
    (evs : list Event) :
  reached storage full srv evs
  = snd (run evs (snd (App.commit (booted storage full srv)))).
Proof.
  unfold reached. destruct (session_unfold storage full srv evs) as (-> & _). reflexivity.
Qed.


Lemma handler_token_settles (srv : Server) (ev : Event) (w : World) :
  issues_string_tokens srv →
  token_settles srv w → token_settles srv (snd (handler ev w)).
Proof.
  intros Hissues (Hsrv & Hran & Hsame).
  assert (Hsign : ∀ s, token_settles srv (snd (sign_in s w))).
  { intros s. destruct (sign_in_untouched s w) as (_ & Hran' & Hsrv').
    destruct (sign_in_outcome s w) as (req & _ & _ & _ & Hurl & Hreply).
    split; [congruence|]. split; [congruence|].
    destruct (server w (requests w) req) as [body|e] eqn:Hanswer.
    - destruct (Js.nullish body) eqn:Hbody; cbn in Hreply;
        [destruct Hreply as [_ ->]; exact Hsame|].
      destruct (storage_full w); cbn in Hreply; [destruct Hreply as [_ ->]; exact Hsame|].
      destruct Hreply as (_ & _ & _ & -> & _). cbn.
      rewrite Hsrv in Hanswer.
      destruct (Hissues _ _ _ Hanswer) as (t & ->); [|assumption|apply String.eqb_refl].
      rewrite Hurl. destruct s; [left|right]; reflexivity.
    - destruct Hreply as [_ ->]. exact Hsame. }
  destruct ev as [email password|email password fullName location| |userData|op].
  - apply (Hsign (ByLogin email password)).
  - apply (Hsign (ByRegister email password fullName location)).
  - change (snd (handler Logout w)) with (snd (AuthContext.logout w)).
    rewrite logout_world. repeat split; assumption.
  - change (snd (handler (UpdateUser userData) w))
      with (snd (AuthContext.updateUser userData w)).
    destruct (updateUser_untouched userData w) as (_ & Hran' & Htoken & Hsrv').
    unfold token_settles. rewrite Hran', Htoken, Hsrv'. repeat split; assumption.
  - rewrite handler_cart.
    destruct (operate_keeps_auth (Js.truthy (user (auth w))) op w) as (Hauth & Hsrv').
    unfold token_settles. rewrite Hauth, Hsrv'. repeat split; assumption.
Qed.

Lemma handle_comes_to_rest (srv : Server) (ev : Event) (w : World) :
  issues_string_tokens srv →
  token_settles srv w →
  token_settles srv (snd (handle ev w)) ∧ App.idle (snd (handle ev w)) = true.
Proof.
  intros Hissues Hsettles. unfold handle, mbind, Eff_bind.
  pose proof (handler_token_settles srv ev w Hissues Hsettles) as (Hsrv & Hran & Hsame).
  pose proof (handler_completes ev w) as Hdone.
  destruct (handler ev w) as [c w1]. cbn in Hdone, Hsrv, Hran, Hsame. subst c.
  cbn [App.settle]. unfold mbind, Eff_bind.
  pose proof (commit_reaches_idle w1 Hran Hsame) as Hidle.
  destruct (commit_after_startup w1 Hran) as (Hdone1 & _ & _ & Htoken & Hran2 & Hsrv2 & _).
  destruct (App.commit w1) as [c w2]. cbn in Hdone1, Hidle, Htoken, Hran2, Hsrv2. subst c.
  rewrite (commit_idle w2 Hidle). cbn.
  repeat split; congruence.
Qed.

(** X13.  A session never throws and always comes to rest: whatever the
    events and the replies, the handlers and the renders complete, and in
    the state reached no effect is due, so that further renders change
    nothing.  (The server issues strings as tokens.) *)
Theorem session_comes_to_rest
    (storage : gmap string string) (full : bool) (srv : Server) (evs : list Event) :
  issues_string_tokens srv →
  fst (session evs (page_load storage full srv)) = Normal ()
  ∧ App.idle (reached storage full srv evs) = true
  ∧ ∀ n, App.settle n (reached storage full srv evs)
         = (Normal (), reached storage full srv evs).
Proof.
  intros Hissues.
  assert (Hboot : token_settles srv (booted storage full srv)).
  { rewrite booted_cases.
    destruct (storage !! "token") as [t|]; [destruct (String.eqb t "");
      [|destruct (srv [] (validation_request t))]|];
      repeat split; cbn; apply String.eqb_refl. }
  destruct Hboot as (Hsrv & Hran & Hsame).
  pose proof (commit_reaches_idle _ Hran Hsame) as Hidle.
  destruct (commit_after_startup _ Hran) as (Hdone & _ & _ & Htoken & Hran1 & Hsrv1 & _).
  assert (Hrun : ∀ w, token_settles srv w → App.idle w = true →
                      fst (run evs w) = Normal ()
                      ∧ App.idle (snd (run evs w)) = true).
  { induction evs as [|ev evs IH]; intros w Hsettles Hrest; [split; [reflexivity|exact Hrest]|].
    cbn [run]. unfold mbind, Eff_bind.
    destruct (handle_comes_to_rest srv ev w Hissues Hsettles) as (Hnext & Hrest').
    pose proof (handle_completes ev w (proj1 (proj2 Hsettles))) as Hfine.
    destruct (handle ev w) as [c w1]. cbn in Hfine, Hnext, Hrest'. subst c.
    apply IH; assumption. }
  destruct (session_unfold storage full srv evs) as (Hsession & _ & _).
  destruct (Hrun (snd (App.commit (booted storage full srv)))) as (Hfine & Hrest).
  { repeat split; congruence. }
  { exact Hidle. }
  rewrite reached_unfold, Hsession.
  split; [exact Hfine|]. split; [exact Hrest|]. intros n. apply settle_idle. exact Hrest.
Qed.


(** [login] and [register] always answer, with one of the two result
    objects. *)
Lemma sign_in_answers (s : SignIn) (w : World) :
  fst (sign_in s w) = Normal success
  ∨ ∃ message, fst (sign_in s w) = Normal (failure message).
Proof.
  destruct s; unfold sign_in; unfold_eff; cbn;
    destruct (server w (requests w) _) as [body|e]; cbn;
    try (destruct (Js.nullish body); cbn; try destruct (storage_full w); cbn);
    eauto.
Qed.


End Properties.

(** ** Properties of the pages *)

Section PageProperties.
Context `{Js.Engine} `{Deployment} `{JsOps.Parser}.

(** *** BasketPage: grouping the items by store *)







(** *** BasketPage: the quantity buttons *)

Lemma updateBasketItem_request (itemId quantity : Js.value) (w : World) :
  fst (CartContext.updateBasketItem true itemId quantity w) ≠ Throw Js.Undefined
  ∧ ∃ req, requests (snd (CartContext.updateBasketItem true itemId quantity w))
           = (requests w ++ [req])%list
           ∧ method req = PUT
           ∧ url req = CartContext.API_BASE +:+ "/basket/items/" +:+ Js.ToString itemId
           ∧ data req = Js.Obj [("quantity", quantity)].
Proof.
  unfold CartContext.updateBasketItem, CartContext.setLoading, CartContext.setBasket,
    detail_or, member, console_error, axios_put, axios_request, try_finally, try_catch,
    modify, mbind, mret, mthrow, Eff_bind, Eff_ret, Eff_throw,
    with_cart, with_requests, with_console.
  cbn. destruct (server w (requests w) _); cbn; (split; [discriminate|]);
    eexists; (split; [reflexivity|]); repeat split.
Qed.

(** X16.  [handleQuantityChange] never asks for a quantity below 0.1.
    When the new quantity, as a number, is below 0.1 it returns at once
    and nothing changes; otherwise it does what [updateBasketItem] of the
    render does.  So every request it sends is a [PUT] for that item with
    a quantity that is not below 0.1 (a quantity that is [NaN] as a number
    is not below 0.1). *)
Theorem quantity_change_is_guarded
    (w : World) (cv : CartContext.CartValue) (itemId newQuantity : Js.value) :
  CartContext.CartProvider [AuthContext.AuthProvider w] w = Normal cv →
  (JsOps.less_than_number newQuantity 0.1 = true →
   BasketPage.handleQuantityChange cv itemId newQuantity w = (Normal Js.Undefined, w))
  ∧ (JsOps.less_than_number newQuantity 0.1 = false →
     fst (BasketPage.handleQuantityChange cv itemId newQuantity w) = Normal Js.Undefined
     ∧ snd (BasketPage.handleQuantityChange cv itemId newQuantity w)
       = snd (CartContext.updateBasketItem (Js.truthy (user (auth w)))
                itemId newQuantity w))
  ∧ Forall (λ req, method req = PUT
                   ∧ url req = CartContext.API_BASE +:+ "/basket/items/"
                               +:+ Js.ToString itemId
                   ∧ data req = Js.Obj [("quantity", newQuantity)]
                   ∧ JsOps.less_than_number newQuantity 0.1 = false)
      (sent (BasketPage.handleQuantityChange cv itemId newQuantity) w).
Proof.
  intros [= <-]. unfold sent, BasketPage.handleQuantityChange.
  cbn [CartContext.value_updateBasketItem AuthContext.value_isAuthenticated
       AuthContext.AuthProvider].
  destruct (JsOps.less_than_number newQuantity 0.1) eqn:Hbelow.
  - split; [reflexivity|]. split; [discriminate|]. cbn. rewrite drop_all. constructor.
  - split; [discriminate|].
    destruct (Js.truthy (user (auth w))).
    + destruct (updateBasketItem_request itemId newQuantity w)
        as (_ & req & Hsent & Hmethod & Hurl & Hdata).
      destruct (operate_outcome (Mutate (UpdateItem itemId newQuantity)) w)
        as (req' & _ & Hreply).
      change (operate true (Mutate (UpdateItem itemId newQuantity)))
        with (CartContext.updateBasketItem true itemId newQuantity) in Hreply.
      assert (Hdone : ∃ r, fst (CartContext.updateBasketItem true itemId newQuantity w)
                           = Normal r).
      { destruct (server w (requests w) req'); destruct Hreply as [-> _]; eauto. }
      destruct Hdone as (r & Hdone).
      rewrite (bind_normal _ _ _ r Hdone). unfold mret, Eff_ret. cbn [fst snd].
      rewrite Hsent, drop_app_length.
      repeat split; auto.
    + change (CartContext.updateBasketItem false itemId newQuantity)
        with (operate false (Mutate (UpdateItem itemId newQuantity))).
      rewrite (bind_normal _ _ _ _ (f_equal fst (operate_disabled _ w))).
      rewrite operate_disabled. unfold mret, Eff_ret. cbn [fst snd].
      rewrite drop_all. repeat split; constructor.
Qed.

(** *** BasketPage: the total of a store *)


Lemma add_to_number (n : float) (v : Js.value) :
  JsOps.add (Js.Num n) v
  = match JsOps.ToPrimitive v with
    | Js.Str y => Js.Str (Js.ToString (Js.Num n) +:+ y)
    | pv => Js.Num (PrimFloat.add n (JsOps.ToNumber pv))
    end.
Proof. unfold JsOps.add. cbn. destruct (JsOps.ToPrimitive v); reflexivity. Qed.




Lemma reduce_sum (storeItems : list Js.value) (n : float) :
  Forall (λ item, Js.nullish item = false
                  ∧ ∃ price, Js.prop item "total_price" = Js.Num price) storeItems →
  JsOps.reduce
    (λ total item,
       if Js.nullish item
       then Throw (Js.TypeError "Cannot read properties of total_price")
       else Normal (JsOps.add total (Js.prop item "total_price")))
    storeItems (Js.Num n)
  = Normal (Js.Num (fold_left
                      (λ total item,
                         PrimFloat.add total (JsOps.ToNumber (Js.prop item "total_price")))
                      storeItems n)).
Proof.
  revert n. induction storeItems as [|item storeItems IH]; intros n Hitems; [reflexivity|].
  apply Forall_cons in Hitems as [(Hitem & price & Hprice) Hitems].
  cbn [JsOps.reduce fold_left]. rewrite Hitem, add_to_number, Hprice. cbn.
  rewrite IH by exact Hitems. reflexivity.
Qed.

(** X18.  [calculateStoreTotal] of items whose [total_price] is a number
    is the sum of the prices, added as doubles from 0 in the order of the
    items. *)
Theorem store_total_sums_the_prices (storeItems : list Js.value) :
  Forall (λ item, Js.nullish item = false
                  ∧ ∃ price, Js.prop item "total_price" = Js.Num price) storeItems →
  BasketPage.calculateStoreTotal storeItems
  = Normal (Js.Num (fold_left
                      (λ total item,
                         PrimFloat.add total (JsOps.ToNumber (Js.prop item "total_price")))
                      storeItems 0%float)).
Proof. intros Hitems. exact (reduce_sum storeItems 0%float Hitems). Qed.


(** *** RegisterPage: submitting the form *)

(** X19.  [handleSubmit] of the registration page.  With a password and
    a confirmation that differ it shows 'Passwords do not match' and
    nothing else happens: no request is sent.  With equal ones it calls
    [register] with the four fields of the form and never throws;
    afterwards it is not loading, the form is as typed, and it has
    navigated to '/' with no error shown when [register] succeeded, and
    shows the message of [register] without navigating otherwise. *)
Theorem submit_registers_matching_passwords (w : World) (st : RegisterPage.State) :
  let submit := RegisterPage.handleSubmit (AuthContext.AuthProvider w) st in
  let register :=
    AuthContext.register (RegisterPage.field st "email") (RegisterPage.field st "password")
      (RegisterPage.field st "fullName") (RegisterPage.field st "location") in
  (RegisterPage.formData st !! "password" ≠ RegisterPage.formData st !! "confirmPassword" →
   submit w
   = (Normal (RegisterPage.mkState (RegisterPage.formData st) false
                (Js.Str "Passwords do not match") (RegisterPage.navigated st)), w))
  ∧ (RegisterPage.formData st !! "password" = RegisterPage.formData st !! "confirmPassword" →
     snd (submit w) = snd (register w)
     ∧ ∃ st', fst (submit w) = Normal st'
              ∧ RegisterPage.formData st' = RegisterPage.formData st
              ∧ RegisterPage.loading st' = false
              ∧ ((fst (register w) = Normal success
                  ∧ RegisterPage.navigated st' = Some "/"
                  ∧ RegisterPage.error st' = Js.Str "")
                 ∨ (∃ message, fst (register w) = Normal (failure message)
                               ∧ RegisterPage.navigated st' = RegisterPage.navigated st
                               ∧ RegisterPage.error st' = message))).
Proof.
  intros submit register. subst submit register. unfold RegisterPage.handleSubmit.
  cbn [AuthContext.value_register AuthContext.AuthProvider].
  split; intros Hpasswords.
  - rewrite bool_decide_eq_true_2 by exact Hpasswords. reflexivity.
  - rewrite bool_decide_eq_false_2 by (intros Hdiffer; exact (Hdiffer Hpasswords)).
    destruct (sign_in_answers
                (ByRegister (RegisterPage.field st "email") (RegisterPage.field st "password")
                   (RegisterPage.field st "fullName") (RegisterPage.field st "location")) w)
      as [Hok|(message & Hfailed)]; cbn [sign_in] in *.
    + rewrite (bind_normal _ _ _ _ Hok). split; [reflexivity|].
      eexists. split; [reflexivity|]. cbn. split; [reflexivity|]. split; [reflexivity|].
      left. auto.
    + rewrite (bind_normal _ _ _ _ Hfailed). split; [reflexivity|].
      eexists. split; [reflexivity|]. cbn. split; [reflexivity|]. split; [reflexivity|].
      right. exists message. auto.
Qed.


End PageProperties.

(** ** The properties at the sample data *)

Section Samples.
#[local] Existing Instance sample_engine.
#[local] Existing Instance sample_deployment.


(** Against C2 as stated: called unauthenticated, [fetchBasket] answers
    [undefined], which is no failure result. *)
Lemma fetch_disabled_answers_undefined :
  fst (operate false Fetch (page_load ∅ false network_down)) = Normal Js.Undefined
  ∧ is_failure_result Js.Undefined = false
  ∧ ¬ answers_failure_result (operate false Fetch) (page_load ∅ false network_down).
Proof.
  repeat split. intros (r & Hr & Hfailure).
  vm_compute in Hr. injection Hr as <-. discriminate Hfailure.
Qed.

(** Start-up with the token "stale", refused by the server. *)
Lemma failed_validation_drops_token_witness :
  settled App.initialize
    (page_load {["token" := "stale"]} false (refuses (Js.Str "Could not validate credentials")))
  = Some (Rejected [("message", Js.Str "Request failed with status code 401");
                    ("response",
                     Js.Obj [("status", Js.Num 401);
                             ("data", Js.Obj [("detail",
                                               Js.Str "Could not validate credentials")])])])
  ∧ persisted_token
      (booted {["token" := "stale"]} false (refuses (Js.Str "Could not validate credentials")))
    = None
  ∧ AuthContext.value_isAuthenticated
      (AuthContext.AuthProvider
         (booted {["token" := "stale"]} false
            (refuses (Js.Str "Could not validate credentials")))) = false.
Proof.
  split; [vm_compute; reflexivity|].
  destruct (failed_validation_drops_token {["token" := "stale"]} false
              (refuses (Js.Str "Could not validate credentials"))
              [("message", Js.Str "Request failed with status code 401");
               ("response",
                Js.Obj [("status", Js.Num 401);
                        ("data", Js.Obj [("detail",
                                          Js.Str "Could not validate credentials")])])])
    as (_ & Hgone & Hout & _); [vm_compute; reflexivity|].
  split; assumption.
Defined.

(** A login refused with a [detail]. *)
Lemma failed_login_witness :
  fst (AuthContext.login (Js.Str "a@b.com") (Js.Str "wrong")
         (page_load ∅ false (refuses (Js.Str "Incorrect email or password"))))
  ≠ Normal success
  ∧ ∃ error message,
      fst (AuthContext.login (Js.Str "a@b.com") (Js.Str "wrong")
             (page_load ∅ false (refuses (Js.Str "Incorrect email or password"))))
      = Normal (failure message)
      ∧ detail_of error = Js.Str "Incorrect email or password"
      ∧ message = Js.Str "Incorrect email or password".
Proof.
  assert (Hfailed :
    fst (AuthContext.login (Js.Str "a@b.com") (Js.Str "wrong")
           (page_load ∅ false (refuses (Js.Str "Incorrect email or password"))))
    ≠ Normal success) by (vm_compute; discriminate).
  split; [exact Hfailed|].
  destruct (failed_login_reports_and_keeps_state (Js.Str "a@b.com") (Js.Str "wrong")
              (page_load ∅ false (refuses (Js.Str "Incorrect email or password")))
              Hfailed)
    as (error & message & Hresult & _ & Hdetail & _ & _ & _ & Hreply & _).
  exists error, message.
  assert (Herror :
    error = Js.Obj [("message", Js.Str "Request failed with status code 401");
                    ("response",
                     Js.Obj [("status", Js.Num 401);
                             ("data", Js.Obj [("detail",
                                               Js.Str "Incorrect email or password")])])])
    by (apply Hreply; vm_compute; reflexivity).
  subst error.
  repeat split; [exact Hresult|exact (Hdetail eq_refl)].
Defined.

(** Against C6 as stated: the sample basket has a [null]
    [estimated_savings], and the derived value is zero. *)
Lemma empty_savings_project_to_zero :
  Js.nullish sample_basket = false
  ∧ Js.prop sample_basket "estimated_savings" = Js.Null
  ∧ CartContext.estimatedSavings sample_basket = Js.Num 0
  ∧ ¬ exact_projections sample_basket.
Proof.
  repeat split. unfold exact_projections. cbn. intros (_ & _ & Hsavings).
  discriminate Hsavings.
Qed.

(** The derived values of a render over the sample basket. *)
Lemma derived_values_witness :
  CartContext.CartProvider
    [AuthContext.AuthProvider
       (snd (mutate true Clear (signed_in sample_server)))]
    (snd (mutate true Clear (signed_in sample_server)))
  = Normal
      (CartContext.mkCartValue sample_basket false
         (CartContext.fetchBasket true) (CartContext.addToBasket true)
         (CartContext.updateBasketItem true) (CartContext.removeFromBasket true)
         (CartContext.clearBasket true) (CartContext.getBasketSummary true)
         (Js.Num 1) (Js.Num 4) (Js.Num 0))
  ∧ projection "total_items" sample_basket = Js.Num 1
  ∧ projection "total_cost" sample_basket = Js.Num 4
  ∧ projection "estimated_savings" sample_basket = Js.Num 0.
Proof.
  assert (Hrender :
    CartContext.CartProvider
      [AuthContext.AuthProvider (snd (mutate true Clear (signed_in sample_server)))]
      (snd (mutate true Clear (signed_in sample_server)))
    = Normal
        (CartContext.mkCartValue sample_basket false
           (CartContext.fetchBasket true) (CartContext.addToBasket true)
           (CartContext.updateBasketItem true) (CartContext.removeFromBasket true)
           (CartContext.clearBasket true) (CartContext.getBasketSummary true)
           (Js.Num 1) (Js.Num 4) (Js.Num 0))) by reflexivity.
  split; [exact Hrender|].
  destruct (derived_values_project_snapshot _ _ Hrender) as (Hitems & Hcost & Hsavings & _).
  cbn in Hitems, Hcost, Hsavings.
  repeat split; symmetry; assumption.
Defined.

(** The render after a login: one fetch of the basket. *)
Lemma authentication_flag_witness :
  cart_effect_deps (cart (just_logged_in sample_server)) = Some false
  ∧ false ≠ true
  ∧ ∃ req, sent (CartContext.effects true) (just_logged_in sample_server) = [req]
           ∧ method req = GET
           ∧ url req = "http://localhost:8001/api/basket/".
Proof.
  assert (Hchanged : false ≠ true) by discriminate.
  repeat split; [exact Hchanged|].
  exact (proj1 (authentication_flag_transition false true (just_logged_in sample_server)
                  eq_refl Hchanged)).
Defined.

(** Against C8 as stated: with the network down, [fetchBasket] called
    while authenticated sends its request, which is rejected, and answers
    [undefined], which is no failure result and is what it answers when
    the request is fulfilled. *)
Lemma fetch_rejected_answers_undefined :
  settled (operate true Fetch) (signed_in network_down)
  = Some (Rejected [("message", Js.Str "Network Error")])
  ∧ fst (operate true Fetch (signed_in network_down)) = Normal Js.Undefined
  ∧ fst (operate true Fetch (signed_in sample_server)) = Normal Js.Undefined
  ∧ is_failure_result Js.Undefined = false
  ∧ ¬ answers_failure_result (operate true Fetch) (signed_in network_down).
Proof.
  repeat split. intros (r & Hr & Hfailure).
  vm_compute in Hr. injection Hr as <-. discriminate Hfailure.
Qed.

(** A quantity change refused with a [detail]. *)
Lemma rejected_operation_witness :
  settled (operate true (Mutate (UpdateItem (Js.Str "i1") (Js.Num 3))))
    (signed_in (refuses (Js.Str "Item not found")))
  = Some (Rejected [("message", Js.Str "Request failed with status code 401");
                    ("response",
                     Js.Obj [("status", Js.Num 401);
                             ("data", Js.Obj [("detail", Js.Str "Item not found")])])])
  ∧ fst (operate true (Mutate (UpdateItem (Js.Str "i1") (Js.Num 3)))
           (signed_in (refuses (Js.Str "Item not found"))))
    = Normal (failure (Js.Str "Item not found"))
  ∧ basket (cart (snd (operate true (Mutate (UpdateItem (Js.Str "i1") (Js.Num 3)))
                         (signed_in (refuses (Js.Str "Item not found"))))))
    = Js.Null.
Proof.
  split; [vm_compute; reflexivity|].
  destruct (rejected_operation_keeps_snapshot
              (Mutate (UpdateItem (Js.Str "i1") (Js.Num 3)))
              (signed_in (refuses (Js.Str "Item not found")))
              [("message", Js.Str "Request failed with status code 401");
               ("response",
                Js.Obj [("status", Js.Num 401);
                        ("data", Js.Obj [("detail", Js.Str "Item not found")])])])
    as (Hresult & _ & Hbasket & _); [vm_compute; reflexivity|].
  split; assumption.
Defined.

(** The scenario of the specification: from a fresh page, a login sends
    its post without a credential, and the render that follows fetches the
    basket once, under the new credential. *)
Example login_then_one_fetch :
  map (λ req, (method req, url req, headers req !! "Authorization"))
    (requests (reached ∅ false sample_server [Login (Js.Str "a@b.com") (Js.Str "x")]))
  = [(POST, "http://localhost:8001/api/auth/login", None);
     (GET, "http://localhost:8001/api/basket/", Some "Bearer srv-token")].
Proof. vm_compute. reflexivity. Qed.



(** A registration refused with a [detail]. *)
Lemma failed_register_witness :
  fst (AuthContext.register (Js.Str "a@b.com") (Js.Str "x") (Js.Str "A B") (Js.Str "Leeds")
         (page_load ∅ false (refuses (Js.Str "Email already registered"))))
  ≠ Normal success
  ∧ auth (snd (AuthContext.register (Js.Str "a@b.com") (Js.Str "x") (Js.Str "A B")
                 (Js.Str "Leeds")
                 (page_load ∅ false (refuses (Js.Str "Email already registered")))))
    = auth (page_load ∅ false (refuses (Js.Str "Email already registered"))).
Proof.
  assert (Hfailed :
    fst (AuthContext.register (Js.Str "a@b.com") (Js.Str "x") (Js.Str "A B") (Js.Str "Leeds")
           (page_load ∅ false (refuses (Js.Str "Email already registered"))))
    ≠ Normal success) by (vm_compute; discriminate).
  split; [exact Hfailed|].
  destruct (failed_register_reports_and_keeps_state
              (Js.Str "a@b.com") (Js.Str "x") (Js.Str "A B") (Js.Str "Leeds")
              (page_load ∅ false (refuses (Js.Str "Email already registered"))) Hfailed)
    as (error & message & _ & _ & _ & _ & _ & Hauth & _).
  exact Hauth.
Defined.


(** Start-up with a token that the sample server accepts. *)
Lemma fulfilled_validation_witness :
  settled App.initialize (page_load {["token" := "srv-token"]} false sample_server)
  = Some (Fulfilled sample_user)
  ∧ user (auth (booted {["token" := "srv-token"]} false sample_server)) = sample_user
  ∧ credential (booted {["token" := "srv-token"]} false sample_server)
    = Some "Bearer srv-token".
Proof.
  split; [vm_compute; reflexivity|].
  destruct (fulfilled_validation_restores_session {["token" := "srv-token"]} false
              sample_server sample_user)
    as (t & Hsaved & _ & Huser & _ & _ & _ & Hcredential & _); [vm_compute; reflexivity|].
  split; [exact Huser|].
  rewrite Hcredential. vm_compute in Hsaved. injection Hsaved as <-. reflexivity.
Defined.

(** A fetch while signed in, answered with the sample basket. *)
Lemma fetch_replaces_snapshot_witness :
  settled (CartContext.fetchBasket true) (signed_in sample_server)
  = Some (Fulfilled sample_basket)
  ∧ basket (cart (snd (CartContext.fetchBasket true (signed_in sample_server))))
    = sample_basket.
Proof.
  split; [vm_compute; reflexivity|].
  destruct (fetch_replaces_snapshot true (signed_in sample_server) sample_basket)
    as (_ & Hbasket & _); [vm_compute; reflexivity|].
  exact Hbasket.
Defined.

(** The token of the sample server is a string. *)
Lemma sample_server_issues_strings : issues_string_tokens sample_server.
Proof.
  intros log req body Hreply Hurl _. unfold sample_server in Hreply.
  destruct Hurl as [Hurl|Hurl]; rewrite Hurl in Hreply; cbn in Hreply;
    injection Hreply as <-; exists "srv-token"; reflexivity.
Defined.

(** The sample session completes and is at rest at its end. *)
Lemma session_comes_to_rest_witness :
  issues_string_tokens sample_server
  ∧ fst (session sample_events (page_load ∅ false sample_server)) = Normal ()
  ∧ App.idle (reached ∅ false sample_server sample_events) = true.
Proof.
  split; [exact sample_server_issues_strings|].
  destruct (session_comes_to_rest ∅ false sample_server sample_events
              sample_server_issues_strings) as (Hdone & Hidle & _).
  split; [exact Hdone|exact Hidle].
Defined.


(** A quantity of zero is not asked for. *)
Lemma quantity_change_witness :
  ∃ cv, CartContext.CartProvider [AuthContext.AuthProvider (signed_in sample_server)]
          (signed_in sample_server) = Normal cv
        ∧ BasketPage.handleQuantityChange (H0 := sample_parser) cv (Js.Str "i1") (Js.Num 0)
            (signed_in sample_server)
          = (Normal Js.Undefined, signed_in sample_server).
Proof.
  eexists. split; [reflexivity|].
  apply (quantity_change_is_guarded (H1 := sample_parser)).
  - reflexivity.
  - reflexivity.
Defined.


(** The total of the sample entries. *)
Lemma store_total_sum_witness :
  Forall (λ item, Js.nullish item = false
                  ∧ ∃ price, Js.prop item "total_price" = Js.Num price) sample_items
  ∧ BasketPage.calculateStoreTotal (H0 := sample_parser) sample_items
    = Normal (Js.Num 7.5).
Proof.
  assert (Hitems : Forall (λ item, Js.nullish item = false
                                   ∧ ∃ price, Js.prop item "total_price" = Js.Num price)
                     sample_items)
    by (repeat constructor; eexists; reflexivity).
  split; [exact Hitems|].
  exact (store_total_sums_the_prices (H1 := sample_parser) sample_items Hitems).
Defined.


End Samples.
